(** * Claim outcome synthesis of the historical insurance-claim generators

    Shallow embedding of the two generator scripts of the repository:
    - [generate-claude-historical-insurance-claim-dataset.py] (module
      [Claude] below): catalogs, [generate_patients], [generate_providers],
      [generate_payers] and the per-claim body of [generate_claims];
    - [generate-gemini-historical-insurance-claim-dataset.py] (module
      [Gemini] below): the module-level claim loop.

    Modelling choices.
    - Currency amounts and probabilities are exact rationals [Q]; Python's
      [round(x, n)] is rounding of the exact value to [n] decimals with ties
      to even ([py_round]).
    - Dates are day numbers [Z]; [timedelta(days=k)] is addition of [k].
    - Every call to the random generator is an explicit input: a record of
      the values drawn for one claim.  [random.choice(seq)] is
      [seq[_randbelow(len(seq))]], modelled by the drawn index;
      [random.choices(pop, weights)] is modelled by the drawn uniform
      [random()] value and the cumulative-weight bisection of the library.
    - Columns that are pure text decoration (names, phones, addresses) are
      left out of the records; every column the claims read is kept. *)

From Stdlib Require Import String Ascii List ZArith QArith Qround Qminmax Lqa Lia Bool.
From Stdlib Require Finite.
Import ListNotations.
Open Scope string_scope.
Open Scope Z_scope.

(** ** Python helpers *)

(** [round(q)] of the exact value: nearest integer, ties to even. *)
Definition round_half_even (q : Q) : Z :=
  let f := Qfloor q in
  match Qcompare (q - inject_Z f) (1 # 2) with
  | Lt => f
  | Gt => f + 1
  | Eq => if Z.even f then f else f + 1
  end.

(** [round(q, n)]. *)
Definition py_round (q : Q) (n : nat) : Q :=
  let s := inject_Z (10 ^ Z.of_nat n) in
  (inject_Z (round_half_even (q * s)) / s)%Q.

(** [random.choice(seq)] with the drawn index [_randbelow(len(seq))]. *)
Definition py_choice {A} (seq : list A) (idx : nat) (dflt : A) : A :=
  nth idx seq dflt.

(** [random.choices(population, weights)[0]] with the drawn [random()]
    value [u]: bisect_right of [u * total] in the cumulative weights. *)
Fixpoint bisect_pick {A} (pop : list A) (ws : list Q) (acc x : Q) (last : A)
  : A :=
  match pop, ws with
  | p :: pop', w :: ws' =>
      if Qlt_le_dec x (acc + w) then p else bisect_pick pop' ws' (acc + w) x p
  | _, _ => last
  end.

Definition py_choices {A} (pop : list A) (ws : list Q) (u : Q) (dflt : A) : A :=
  let total := fold_left Qplus ws 0%Q in
  bisect_pick pop ws 0 (u * total) dflt.

(** [dict.get(key, default)] on a dict built by [dict(zip(keys, values))]
    (the first binding of a key is the one a dict literal would keep only
    for distinct keys, which is the case for the id columns). *)
Fixpoint dict_get {V} (d : list (string * V)) (k : string) : option V :=
  match d with
  | [] => None
  | (k', v) :: d' => if String.eqb k k' then Some v else dict_get d' k
  end.

Definition dict_get_default {V} (d : list (string * V)) (k : string) (dflt : V)
  : V :=
  match dict_get d k with Some v => v | None => dflt end.

(** [min(a, b)] and [max(a, b)]: the first argument unless the second is
    strictly smaller (larger). *)
Definition py_min (a b : Q) : Q := if Qlt_le_dec b a then b else a.
Definition py_max (a b : Q) : Q := if Qlt_le_dec a b then b else a.

(** [d[k] = v] on a dict kept in insertion order: a key already present
    keeps its place, a new key goes last. *)
Fixpoint dict_set {V} (d : list (string * V)) (k : string) (v : V)
  : list (string * V) :=
  match d with
  | [] => [(k, v)]
  | (k', v') :: d' =>
      if String.eqb k k' then (k', v) :: d' else (k', v') :: dict_set d' k v
  end.

(** Whether a cell holds a value ([x is not None]). *)
Definition is_some {A : Type} (o : option A) : bool :=
  match o with Some _ => true | None => false end.

(** [str(n)] for a natural number. *)
Fixpoint str_of_nat_aux (fuel n : nat) (acc : string) : string :=
  match fuel with
  | O => acc
  | S f =>
      let acc' := String (ascii_of_nat (48 + n mod 10)) acc in
      if Nat.ltb n 10 then acc' else str_of_nat_aux f (n / 10) acc'
  end.

Definition str_of_nat (n : nat) : string := str_of_nat_aux (S n) n EmptyString.

Fixpoint zeros (k : nat) : string :=
  match k with O => EmptyString | S k' => String "0" (zeros k') end.

(** [s.zfill(w)] for a string of digits. *)
Definition zfill (s : string) (w : nat) : string :=
  append (zeros (w - String.length s)) s.

(** [int(s)] for a string of decimal digits (leading zeros allowed): the
    reading back of the zero-padded ids. *)
Fixpoint int_of_digits_from (acc : nat) (s : string) : nat :=
  match s with
  | EmptyString => acc
  | String c s' => int_of_digits_from (acc * 10 + (nat_of_ascii c - 48))%nat s'
  end.

Definition int_of_digits (s : string) : nat := int_of_digits_from 0%nat s.

(** ** Proleptic Gregorian calendar on day numbers (day 0 = 1970-01-01),
    used for [datetime.date] values and [date.replace(year=...)]. *)

Definition days_from_civil (y m d : Z) : Z :=
  let y' := if m <=? 2 then y - 1 else y in
  let era := y' / 400 in
  let yoe := y' - era * 400 in
  let doy := (153 * (if m >? 2 then m - 3 else m + 9) + 2) / 5 + d - 1 in
  let doe := yoe * 365 + yoe / 4 - yoe / 100 + doy in
  era * 146097 + doe - 719468.

Definition civil_from_days (z : Z) : Z * Z * Z :=
  let z' := z + 719468 in
  let era := z' / 146097 in
  let doe := z' - era * 146097 in
  let yoe := (doe - doe / 1460 + doe / 36524 - doe / 146096) / 365 in
  let doy := doe - (365 * yoe + yoe / 4 - yoe / 100) in
  let mp := (5 * doy + 2) / 153 in
  let d := doy - (153 * mp + 2) / 5 + 1 in
  let m := if mp <? 10 then mp + 3 else mp - 9 in
  let y := yoe + era * 400 in
  (if m <=? 2 then y + 1 else y, m, d).

(** [date.replace(year = date.year + k)] (for a date other than February
    29th, the only case where the library call cannot fail). *)
Definition shift_year (z k : Z) : Z :=
  let '(y, m, d) := civil_from_days z in days_from_civil (y + k) m d.

(** The Faker library's [date_of_birth(minimum_age, maximum_age)] (library
    code, not part of this repository): it reads the run date [today]
    ([datetime.now()]), draws a date uniformly between [today] moved back
    [maximum_age + 1] years and [today] moved back [minimum_age] years
    ([u] is the drawn fraction of that span), and moves a draw equal to the
    start of the span one day later. *)
Definition faker_date_of_birth (today : Z) (u : Q) (minimum_age maximum_age : Z)
  : Z :=
  let start := shift_year today (- (maximum_age + 1)) in
  let end_ := shift_year today (- minimum_age) in
  let dob := start + Qfloor (u * inject_Z (end_ - start)) in
  if dob =? start then dob + 1 else dob.

(** * The generator of [generate-claude-historical-insurance-claim-dataset.py] *)

Module Claude.

(** ** Reference catalogs *)

(** Keys of [diagnosis_codes], in dict order. *)
Definition diagnosis_codes : list string :=
  ["E11.9"; "I10"; "J45.909"; "M54.5"; "F41.9"; "F32.9"; "K21.9"; "M17.9";
   "J40"; "N39.0"; "H40.9"; "E78.5"; "I25.10"; "G47.00"; "G43.909";
   "J02.9"; "J01.90"; "M25.511"; "M25.512"; "M79.604"; "M79.605";
   "M79.621"; "M79.622"; "R10.9"; "R07.9"; "R51"; "Z00.00"; "Z00.129";
   "Z23"; "Z12.11"; "Z12.31"].

(** Keys of [procedure_codes], in dict order. *)
Definition procedure_codes : list string :=
  ["99213"; "99214"; "99203"; "99204"; "80053"; "85025"; "82607"; "80061";
   "71045"; "71046"; "72100"; "70450"; "93000"; "94640"; "97110"; "99385";
   "99386"; "99395"; "99396"; "90471"; "90686"; "90715"; "99243"; "99244";
   "96372"; "99283"; "99284"; "99285"; "29125"; "29515"; "45378"; "45380";
   "77067"; "77066"].

(** Keys of [revenue_codes], in dict order. *)
Definition revenue_codes : list string :=
  ["0120"; "0250"; "0270"; "0300"; "0320"; "0370"; "0420"; "0450"; "0510";
   "0636"; "0260"; "0410"; "0610"; "0730"; "0921"].

(** Keys of [place_of_service_codes], in dict order. *)
Definition place_of_service_codes : list string :=
  ["11"; "21"; "22"; "23"; "24"; "31"; "32"; "33"; "41"; "50"; "65"; "71";
   "72"; "20"; "12"; "81"].

(** [denial_reasons]: code and description, in dict order. *)
Definition denial_reasons : list (string * string) :=
  [("A1", "Missing or invalid subscriber/insured ID number");
   ("A2", "Claim lacks required information");
   ("A3", "Duplicate claim submission");
   ("A4", "Claim filed after filing deadline");
   ("A5", "Claim form incomplete or invalid");
   ("A6", "Missing or invalid provider information");
   ("A7", "Invalid place of service for procedure");
   ("A8", "Incorrect provider specialty for service");
   ("B1", "Service specifically excluded from coverage");
   ("B2", "Service not covered under patient's plan");
   ("B3", "Cosmetic procedure not covered");
   ("B4", "Routine service not covered");
   ("B5", "Non-emergency service performed out of network");
   ("B6", "Annual benefit maximum met");
   ("B7", "Service considered experimental/investigational");
   ("B8", "Frequency limitation exceeded");
   ("C1", "Prior authorization/precertification required but not obtained");
   ("C2", "Prior authorization number invalid");
   ("C3", "Service differs from authorized service");
   ("C4", "Authorization expired or date of service outside approval range");
   ("D1", "Service not medically necessary based on diagnosis");
   ("D2", "Upcoding detected - service level not supported by documentation");
   ("D3", "Unbundling detected - services should be billed as single procedure");
   ("D4", "Diagnosis does not support medical necessity for procedure");
   ("E1", "Patient not eligible on date of service");
   ("E2", "Coverage terminated prior to service date");
   ("E3", "Patient has primary insurance with another carrier");
   ("E4", "Preexisting condition limitations apply");
   ("E5", "Service processed under different procedure code");
   ("E6", "Claim pending for additional information");
   ("E7", "Modifier inappropriate or missing");
   ("E8", "Coordination of benefits information required");
   ("E9", "Provider not in-network for this service");
   ("E10", "Claim requires manual review");
   ("E11", "Invalid diagnosis code");
   ("E12", "Invalid procedure code");
   ("E13", "Patient responsibility (deductible/copay/coinsurance)");
   ("E14", "Billed amount exceeds fee schedule allowance");
   ("E15", "Charges included in global procedure payment");
   ("F1", "Service previously adjudicated");
   ("F2", "Refund or reversal of previous claim payment");
   ("F3", "Services properly billed to facility");
   ("F4", "Claim awaiting medical records review");
   ("F5", "Waiting for response to payer initiated correspondence");
   ("F6", "Coding inconsistent with national standards");
   ("F7", "Claim requires specialized handling");
   ("F8", "Non-covered provider specialty")].

(** [specialties]: name and denial modifier. *)
Definition specialties : list (string * Q) :=
  [("Family Medicine", (9 # 10));
   ("Internal Medicine", (1 # 1));
   ("Cardiology", (6 # 5));
   ("Dermatology", (11 # 10));
   ("Orthopedics", (13 # 10));
   ("Neurology", (6 # 5));
   ("Pediatrics", (4 # 5));
   ("Obstetrics", (6 # 5));
   ("Gynecology", (1 # 1));
   ("Psychiatry", (11 # 10));
   ("Oncology", (13 # 10));
   ("Radiology", (11 # 10));
   ("Urology", (1 # 1));
   ("Gastroenterology", (11 # 10));
   ("Endocrinology", (1 # 1));
   ("Nephrology", (6 # 5));
   ("Pulmonology", (11 # 10));
   ("Rheumatology", (6 # 5));
   ("Allergy & Immunology", (9 # 10));
   ("Emergency Medicine", (1 # 1));
   ("Physical Medicine & Rehabilitation", (13 # 10));
   ("Infectious Disease", (1 # 1));
   ("General Surgery", (6 # 5));
   ("Vascular Surgery", (13 # 10));
   ("Plastic Surgery", (7 # 5))].

(** [payer_info]: name, type and denial modifier. *)
Definition payer_info : list (string * string * Q) :=
  [("Blue Cross Blue Shield", "Commercial", (1 # 1));
   ("UnitedHealthcare", "Commercial", (6 # 5));
   ("Aetna", "Commercial", (11 # 10));
   ("Cigna", "Commercial", (13 # 10));
   ("Humana", "Commercial", (1 # 1));
   ("Kaiser Permanente", "Commercial", (9 # 10));
   ("Medicare", "Medicare", (4 # 5));
   ("Medicare Advantage", "Medicare", (11 # 10));
   ("Medicaid", "Medicaid", (6 # 5));
   ("Centene", "Commercial", (11 # 10));
   ("Molina Healthcare", "Commercial", (6 # 5));
   ("Anthem", "Commercial", (1 # 1));
   ("Health Net", "Commercial", (11 # 10));
   ("CareFirst", "Commercial", (9 # 10));
   ("Wellcare", "Commercial", (1 # 1));
   ("Tricare", "Commercial", (9 # 10));
   ("Optum", "Commercial", (11 # 10));
   ("CVS Caremark", "Commercial", (1 # 1));
   ("Self-Pay", "Self-Pay", (7 # 10));
   ("Workers Compensation", "Workers Comp", (6 # 5))].

(** [high_denial_procedures]. *)
Definition high_denial_procedures : list string :=
  ["70450"; "93000"; "45378"; "77067"; "96372"; "97110"; "99284"; "99244";
   "45380"; "77066"].

(** [denial_categories], in dict order. *)
Definition denial_categories : list (string * list string) :=
  [("administrative", ["A1"; "A2"; "A3"; "A4"; "A5"; "A6"; "A7"; "A8"]);
   ("excluded_service", ["B1"; "B2"; "B3"; "B4"; "B5"; "B6"; "B7"; "B8"]);
   ("no_prior_auth", ["C1"; "C2"; "C3"; "C4"]);
   ("not_medically_necessary", ["D1"; "D2"; "D3"; "D4"]);
   ("other", ["E1"; "E2"; "E3"; "E4"; "E5"; "E6"; "E7"; "E8"; "E9"; "E10";
              "E11"; "E12"; "E13"; "E14"; "E15"]);
   ("remaining", ["F1"; "F2"; "F3"; "F4"; "F5"; "F6"; "F7"; "F8"])].

(** [denial_categories[name]] (every name used by the code is a key). *)
Definition category_codes (name : string) : list string :=
  dict_get_default denial_categories name [].

(** ** Configuration ([CONFIG]) *)

Record config := {
  start_date : Z;
  end_date : Z;
  num_patients : nat;
  num_providers : nat;
  num_payers : nat;
  claim_status_format : string;
  overall_denial_rate : Q;
  denial_reason_distribution : list (string * Q)
}.

Definition CONFIG : config := {|
  start_date := days_from_civil 2022 1 1;
  end_date := days_from_civil 2024 12 31;
  num_patients := 2000000;
  num_providers := 65000;
  num_payers := 20;
  claim_status_format := "numeric";
  overall_denial_rate := 19 # 100;
  denial_reason_distribution :=
    [("other", 34 # 100); ("administrative", 18 # 100);
     ("excluded_service", 16 # 100); ("no_prior_auth", 9 # 100);
     ("not_medically_necessary", 6 # 100); ("remaining", 17 # 100)]
|}.

(** ** Random draws *)

(** [random.random()] values lie in [0, 1). *)
Definition unit_draw_ok (u : Q) : bool := Qle_bool 0 u && negb (Qle_bool 1 u).

(** [random.uniform(a, b)] is [a + (b - a) * random()]. *)
Definition py_uniform (a b u : Q) : Q := (a + (b - a) * u)%Q.

(** [random.randint(a, b)]: the raw draw [r] reduced to [a .. b]. *)
Definition py_randint (a b : Z) (r : nat) : Z := a + Z.of_nat r mod (b - a + 1).

(** [random.choice(seq)]: the raw draw reduced to an index of [seq]. *)
Definition choice {A} (seq : list A) (r : nat) (dflt : A) : A :=
  py_choice seq (r mod length seq) dflt.

(** [random.random() < p]. *)
Definition Qltb (x y : Q) : bool := negb (Qle_bool y x).

(** ** Entities *)

(** A patient row of [generate_patients] (the columns the claims use). *)
Record patient := {
  patient_id : string;
  gender : string;
  dob : Z;
  insurance_id : string
}.

(** A provider row of [generate_providers]. *)
Record provider := {
  provider_id : string;
  specialty : string;
  specialty_denial_modifier : Q;
  network_status : string
}.

(** A payer row of [generate_payers]. *)
Record payer := {
  payer_id : string;
  payer_name : string;
  payer_type : string;
  payer_denial_modifier : Q;
  prior_auth_required_procedures : list string;
  base_denial_rate : Q;
  timely_filing_limit_days : Z
}.

(** [f"INS{str(n).zfill(3)}"]. *)
Definition ins_id (n : nat) : string := append "INS" (zfill (str_of_nat n) 3).

Record patient_draws := {
  pd_gender : nat;
  pd_dob : Q;
  pd_insurance : nat
}.

(** [generate_patients]: the [j]-th patient, [today] being the run date
    read by Faker's [date_of_birth]. *)
Definition make_patient (cfg : config) (today : Z) (j : nat) (d : patient_draws)
  : patient := {|
  patient_id := append "P" (zfill (str_of_nat (j + 1)) 8);
  gender := choice ["M"; "F"] (pd_gender d) "M";
  dob := faker_date_of_birth today (pd_dob d) 1 95;
  insurance_id := ins_id (Z.to_nat (py_randint 1 (Z.of_nat (num_payers cfg))
                                                 (pd_insurance d)))
|}.

Fixpoint generate_patients_from (cfg : config) (today : Z) (j : nat)
  (ds : list patient_draws) : list patient :=
  match ds with
  | [] => []
  | d :: ds' => make_patient cfg today j d :: generate_patients_from cfg today (S j) ds'
  end.

(** One draw record per patient: [num_patients] of them. *)
Definition generate_patients (cfg : config) (today : Z) (ds : list patient_draws)
  : list patient :=
  generate_patients_from cfg today 0%nat ds.

Record provider_draws := {
  vd_specialty : nat;
  vd_network : nat
}.

Definition make_provider (i : nat) (d : provider_draws) : provider :=
  let s := choice specialties (vd_specialty d) ("", 1%Q) in {|
  provider_id := append "DR" (zfill (str_of_nat (i + 1)) 7);
  specialty := fst s;
  specialty_denial_modifier := snd s;
  network_status := choice ["In-Network"; "Out-of-Network"] (vd_network d) ""
|}.

Fixpoint generate_providers_from (i : nat) (ds : list provider_draws)
  : list provider :=
  match ds with
  | [] => []
  | d :: ds' => make_provider i d :: generate_providers_from (S i) ds'
  end.

Definition generate_providers (ds : list provider_draws) : list provider :=
  generate_providers_from 0%nat ds.

Record payer_draws := {
  yd_prior_auth : list string;  (** [random.sample(procedure codes, k)] *)
  yd_timely_filing : nat
}.

(** [generate_payers]: [sel] are the indices of the entries of
    [random.sample(payer_info, actual_num_payers)]; the
    [prior_auth_required_procedures] column holds the joined sample, which
    [split(',')] gives back. *)
Definition make_payer (cfg : config) (i : nat) (info : string * string * Q)
  (d : payer_draws) : payer :=
  let '(name, ty, m) := info in {|
  payer_id := ins_id (i + 1);
  payer_name := name;
  payer_type := ty;
  payer_denial_modifier := m;
  prior_auth_required_procedures := yd_prior_auth d;
  base_denial_rate := py_round (overall_denial_rate cfg * m) 3;
  timely_filing_limit_days :=
    choice [30; 60; 90; 120; 180; 365] (yd_timely_filing d) 30
|}.

Definition generate_payers (cfg : config) (sel : list nat) (ds : list payer_draws)
  : list payer :=
  let actual_num_payers := Nat.min (num_payers cfg) (length payer_info) in
  map (fun i => make_payer cfg i (nth (nth i sel 0%nat) payer_info ("", "", 1%Q))
                             (nth i ds {| yd_prior_auth := []; yd_timely_filing := 0 |}))
      (seq 0%nat actual_num_payers).

(** ** Claims ([generate_claims]) *)

(** The lookup tables built at the top of [generate_claims]. *)
Record env := {
  payer_base_denial_rates : list (string * Q);
  payer_prior_auth_lists : list (string * list string);
  provider_denial_modifiers : list (string * Q);
  provider_network_status : list (string * string);
  patient_ids : list string;
  provider_ids : list string
}.

Definition make_env (patients : list patient) (providers : list provider)
  (payers : list payer) : env := {|
  payer_base_denial_rates := map (fun p => (payer_id p, base_denial_rate p)) payers;
  payer_prior_auth_lists :=
    map (fun p => (payer_id p, prior_auth_required_procedures p)) payers;
  provider_denial_modifiers :=
    map (fun v => (provider_id v, specialty_denial_modifier v)) providers;
  provider_network_status := map (fun v => (provider_id v, network_status v)) providers;
  patient_ids := map patient_id patients;
  provider_ids := map provider_id providers
|}.

Definition submission_lag_days : list Z := [1; 2; 3; 5; 7; 10; 14; 21; 30; 45; 60; 90].
Definition submission_lag_weights : list Q :=
  [15 # 100; 15 # 100; 15 # 100; 10 # 100; 10 # 100; 10 # 100;
   5 # 100; 5 # 100; 5 # 100; 5 # 100; 3 # 100; 2 # 100].

(** [denial_reason_weights]: each category's share split evenly over its
    codes, in the order of [denial_categories]. *)
Definition denial_reason_weights (cfg : config) : list (string * Q) :=
  flat_map (fun '(category, codes) =>
              let weight := (dict_get_default (denial_reason_distribution cfg)
                                               category 0
                             / inject_Z (Z.of_nat (length codes)))%Q in
              map (fun code => (code, weight)) codes)
           denial_categories.

(** [claim_status] values: an int, a bool or a string. *)
Inductive status_value := StNum (n : Z) | StBool (b : bool) | StStr (s : string).

(** Python's [==] on these values ([True == 1] and [False == 0]). *)
Definition py_eq (a b : status_value) : bool :=
  match a, b with
  | StNum x, StNum y => Z.eqb x y
  | StBool x, StBool y => Bool.eqb x y
  | StNum x, StBool y | StBool y, StNum x => Z.eqb x (if y then 1 else 0)
  | StStr x, StStr y => String.eqb x y
  | _, _ => false
  end.

Definition format_status (cfg : config) (denied : bool) : status_value :=
  if String.eqb (claim_status_format cfg) "numeric" then StNum (if denied then 1 else 0)
  else if String.eqb (claim_status_format cfg) "boolean" then StBool denied
  else StStr (if denied then "DENIED" else "APPROVED").

(** The [is_denied] test of the payment and days-to-payment loops. *)
Definition status_is_denied (cfg : config) (s : status_value) : bool :=
  if String.eqb (claim_status_format cfg) "numeric" then py_eq s (StNum 1)
  else if String.eqb (claim_status_format cfg) "boolean" then py_eq s (StBool true)
  else py_eq s (StStr "DENIED").

(** The values drawn for one claim, one field per random call. *)
Record claim_draws := {
  cd_patient : nat;
  cd_provider : nat;
  cd_payer : nat;
  cd_service : nat;
  cd_lag : Q;
  cd_primary : nat;
  cd_has_secondary : Q;
  cd_secondary : nat;
  cd_procedure : nat;
  cd_place : nat;
  cd_has_revenue : Q;
  cd_revenue : nat;
  cd_auth : Q;
  cd_base_charge : Q;
  cd_hospital_factor : Q;
  cd_timely_filing : nat;
  cd_denial : Q;
  cd_network_coin : Q;
  cd_reason : nat;
  cd_reason_weighted : Q;
  cd_reimbursement : Q;
  cd_processing : nat;
  cd_frequency : Q
}.

(** Every [random.random()] value of the record lies in [0, 1). *)
Definition claim_draws_ok (d : claim_draws) : bool :=
  forallb unit_draw_ok
    [cd_lag d; cd_has_secondary d; cd_has_revenue d; cd_auth d; cd_base_charge d;
     cd_hospital_factor d; cd_denial d; cd_network_coin d; cd_reason_weighted d;
     cd_reimbursement d; cd_frequency d].

(** A claim row. *)
Record claim := {
  claim_id : string;
  c_patient_id : string;
  c_provider_id : string;
  c_payer_id : string;
  service_date : Z;
  submission_date : Z;
  processing_date : Z;
  primary_diagnosis_code : string;
  secondary_diagnosis_code : option string;
  procedure_code : string;
  revenue_code : option string;
  place_of_service_code : string;
  prior_auth_required : bool;
  prior_auth_obtained : bool;
  charge_amount : Q;
  claim_status : status_value;
  denial_reason_code : option string;
  denial_reason_description : option string;
  payment_amount : option Q;
  patient_responsibility : Q;
  claim_frequency : Z;
  days_to_payment : option Z
}.

(** The composition of the denial probability (lines 549-571). *)
Definition denial_probability (base_denial_prob provider_modifier : Q)
  (no_auth out_of_network high_denial : bool) (submission_lag timely_filing_limit : Z)
  : Q :=
  let p0 := (base_denial_prob * provider_modifier)%Q in
  let p1 := if no_auth then (p0 + (60 # 100))%Q else p0 in
  let p2 := if out_of_network then (p1 + (20 # 100))%Q else p1 in
  let p3 := if high_denial then (p2 + (15 # 100))%Q else p2 in
  let p4 := if Qltb (inject_Z timely_filing_limit * (8 # 10)) (inject_Z submission_lag)
            then (p3 + (30 # 100))%Q else p3 in
  py_min p4 (95 # 100).

(** The denial-reason decision list (lines 586-597). *)
Definition select_denial_code (cfg : config) (no_auth out_of_network : bool)
  (submission_lag timely_filing_limit : Z) (d : claim_draws) : string :=
  if no_auth then choice (category_codes "no_prior_auth") (cd_reason d) ""
  else if out_of_network && Qltb (cd_network_coin d) (1 # 2) then
    choice (category_codes "excluded_service") (cd_reason d) ""
  else if submission_lag >? timely_filing_limit then choice ["A4"; "H1"] (cd_reason d) ""
  else py_choices (map fst (denial_reason_weights cfg))
                  (map snd (denial_reason_weights cfg)) (cd_reason_weighted d) "".

Definition timely_filing_choices : list Z := [30; 60; 90; 120; 180; 365].

(** [random.choices(submission_lag_days, submission_lag_weights)[0]]. *)
Definition draw_submission_lag (d : claim_draws) : Z :=
  py_choices submission_lag_days submission_lag_weights (cd_lag d) 1.

(** [random.choice([30, 60, 90, 120, 180, 365])], drawn per claim. *)
Definition draw_timely_filing_limit (d : claim_draws) : Z :=
  choice timely_filing_choices (cd_timely_filing d) 30.

(** [category_for_denial_code.get(code)]: the category listing [code]. *)
Definition category_for_denial_code (code : string) : option string :=
  option_map fst (find (fun '(_, codes) => existsb (String.eqb code) codes)
                       denial_categories).

(** The [i]-th claim of [generate_claims] (lines 470-691, one column entry
    of each list per claim). *)
Definition gen_claim (cfg : config) (e : env) (i : nat) (d : claim_draws) : claim :=
  let pid := choice (patient_ids e) (cd_patient d) "" in
  let vid := choice (provider_ids e) (cd_provider d) "" in
  let yid := ins_id (Z.to_nat (py_randint 1 (Z.of_nat (num_payers cfg)) (cd_payer d))) in
  let days_in_range := end_date cfg - start_date cfg in
  let service := start_date cfg + py_randint 0 days_in_range (cd_service d) in
  let lag := draw_submission_lag d in
  let submission := Z.min (service + lag) (end_date cfg) in
  let primary := choice diagnosis_codes (cd_primary d) "" in
  let secondary :=
    if Qltb (cd_has_secondary d) (4 # 10)
    then Some (choice diagnosis_codes (cd_secondary d) "") else None in
  let procedure := choice procedure_codes (cd_procedure d) "" in
  let place := choice place_of_service_codes (cd_place d) "" in
  let revenue :=
    if Qltb (cd_has_revenue d) (7 # 10)
    then Some (choice revenue_codes (cd_revenue d) "") else None in
  let payer_auth_list := dict_get_default (payer_prior_auth_lists e) yid [""] in
  let required := existsb (String.eqb procedure) payer_auth_list in
  let obtained := if required then Qltb (cd_auth d) (85 # 100) else false in
  let base_charge := py_uniform 50 5000 (cd_base_charge d) in
  let charge :=
    if existsb (String.eqb place) ["21"; "23"]
    then (base_charge * py_uniform (3 # 2) 3 (cd_hospital_factor d))%Q
    else base_charge in
  let charge_amount := py_round charge 2 in
  let base_denial_prob :=
    dict_get_default (payer_base_denial_rates e) yid (overall_denial_rate cfg) in
  let provider_modifier := dict_get_default (provider_denial_modifiers e) vid 1%Q in
  let no_auth := required && negb obtained in
  let out_of_network :=
    match dict_get (provider_network_status e) vid with
    | Some s => String.eqb s "Out-of-Network"
    | None => false
    end in
  let high_denial := existsb (String.eqb procedure) high_denial_procedures in
  let timely_filing_limit := draw_timely_filing_limit d in
  let p := denial_probability base_denial_prob provider_modifier no_auth
             out_of_network high_denial lag timely_filing_limit in
  let is_denied := Qltb (cd_denial d) p in
  let status := format_status cfg is_denied in
  let code :=
    if is_denied
    then Some (select_denial_code cfg no_auth out_of_network lag timely_filing_limit d)
    else None in
  let denied := status_is_denied cfg status in
  let payment :=
    if denied then None
    else Some (py_round (charge_amount * py_uniform (1 # 2) (95 # 100)
                                            (cd_reimbursement d)) 2) in
  let processing :=
    let pd := submission + py_randint 3 30 (cd_processing d) in
    if pd >? end_date cfg then end_date cfg else pd in
  {| claim_id := append "CLM" (zfill (str_of_nat (i + 1)) 10);
     c_patient_id := pid;
     c_provider_id := vid;
     c_payer_id := yid;
     service_date := service;
     submission_date := submission;
     processing_date := processing;
     primary_diagnosis_code := primary;
     secondary_diagnosis_code := secondary;
     procedure_code := procedure;
     revenue_code := revenue;
     place_of_service_code := place;
     prior_auth_required := required;
     prior_auth_obtained := obtained;
     charge_amount := charge_amount;
     claim_status := status;
     denial_reason_code := code;
     denial_reason_description :=
       option_map (fun c => dict_get_default denial_reasons c "Unknown reason") code;
     payment_amount := payment;
     patient_responsibility :=
       match payment with
       | None => charge_amount
       | Some pay => py_round (charge_amount - pay) 2
       end;
     claim_frequency := py_choices [1; 2; 3] [85 # 100; 10 # 100; 5 # 100]
                                   (cd_frequency d) 1;
     days_to_payment := if denied then None else Some (processing - submission)
  |}.

Fixpoint generate_claims_from (cfg : config) (e : env) (i : nat) (ds : list claim_draws)
  : list claim :=
  match ds with
  | [] => []
  | d :: ds' => gen_claim cfg e i d :: generate_claims_from cfg e (S i) ds'
  end.

(** [generate_claims]: one draw record per claim. *)
Definition generate_claims (cfg : config) (e : env) (ds : list claim_draws) : list claim :=
  generate_claims_from cfg e 0%nat ds.

(** One run of [main]: patients, providers, payers, then claims over the
    lookup tables of the generated entities. *)
Definition run (cfg : config) (today : Z) (pds : list patient_draws)
  (vds : list provider_draws) (sel : list nat) (yds : list payer_draws)
  (cds : list claim_draws) : list patient * list provider * list payer * list claim :=
  let patients := generate_patients cfg today pds in
  let providers := generate_providers vds in
  let payers := generate_payers cfg sel yds in
  (patients, providers, payers,
   generate_claims cfg (make_env patients providers payers) cds).

(** ** Statistics of [main] *)

(** [calculate_denial_rate(claims_df)]: the share of rows whose
    [claim_status] reads denied under the configured format. *)
Definition calculate_denial_rate (cfg : config) (claims_df : list claim) : Q :=
  let denied_count :=
    length (filter (fun c => status_is_denied cfg (claim_status c)) claims_df) in
  let total_count := length claims_df in
  if Nat.ltb 0 total_count
  then (inject_Z (Z.of_nat denied_count) / inject_Z (Z.of_nat total_count))%Q
  else 0%Q.




End Claude.

(** * The claim loop of [generate-gemini-historical-insurance-claim-dataset.py] *)

Module Gemini.

Definition CLAIM_STATUS_DENIED : Z := 1.
Definition CLAIM_STATUS_APPROVED : Z := 0.

Definition cpt_codes : list string :=
  ["99213"; "99214"; "99203"; "99204"; "99395"; "99396"; "85025"; "80053";
   "71046"; "36415"; "99283"; "99284"; "99285"; "90686"; "90716"].
Definition cpt_weights : list Q :=
  map (fun w => inject_Z w) [20; 18; 10; 8; 5; 5; 7; 6; 4; 3; 5; 4; 2; 2; 1].

Definition icd10_codes : list string :=
  ["E11.9"; "I10"; "J45.909"; "R07.9"; "M54.5"; "G89.29"; "N39.0"; "Z00.00";
   "F41.9"; "K21.9"; "L20.9"; "R51"; "S06.0X0A"; "T63.01XA"; "Z12.39"].
Definition icd10_weights : list Q :=
  map (fun w => inject_Z w) [15; 12; 8; 10; 7; 6; 5; 5; 4; 6; 4; 3; 3; 1; 1].

Definition denial_weights : list (string * Q) :=
  [("OTHER", 34#1); ("ADMIN", 18#1); ("EXCLUDED", 16#1); ("NO_AUTH", 9#1);
   ("MED_NEC", 6#1); ("CODING_MISMATCH", 5#1); ("INCOMPLETE_DOCS", 5#1);
   ("TIMELY_FILING", 3#1); ("DUPLICATE", 2#1); ("ELIGIBILITY", 2#1)].

Definition high_denial_specialties : list string :=
  ["Radiology"; "Emergency Medicine"; "Psychiatry"; "General Surgery"].

(** The tables built before the loop: [payer_denial_rates] and
    [provider_specialty_map], and the id lists. *)
Record env := {
  payer_denial_rates : list (string * Q);
  provider_specialty_map : list (string * string);
  patient_ids : list string;
  provider_ids : list string;
  payer_ids : list string
}.

(** The values drawn for claim [i], from the pre-sampled arrays and from
    the calls made inside the loop. *)
Record claim_draws := {
  gd_patient : nat;
  gd_provider : nat;
  gd_payer : nat;
  gd_service : nat;
  gd_lag : nat;
  gd_charge : Q;
  gd_cpt : Q;
  gd_icd10 : Q;
  gd_auth : Q;
  gd_coding : Q;
  gd_docs : Q;
  gd_reason : Q;
  gd_determiner : Q;
  gd_override0 : Q;
  gd_override1 : Q;
  gd_paid : Q;
  gd_use_override : Q
}.

Definition claim_draws_ok (d : claim_draws) : bool :=
  forallb Claude.unit_draw_ok
    [gd_charge d; gd_cpt d; gd_icd10 d; gd_auth d; gd_coding d; gd_docs d;
     gd_reason d; gd_determiner d; gd_override0 d; gd_override1 d; gd_paid d;
     gd_use_override d].

Record claim := {
  g_claim_id : string;
  g_patient_id : string;
  g_provider_id : string;
  g_payer_id : string;
  provider_specialty : string;
  date_of_service : Z;
  claim_submission_date : Z;
  submission_lag_days : Z;
  cpt_code : string;
  icd10_code : string;
  claim_charge_amount : Q;
  prior_authorization_obtained : bool;
  coding_mismatch_flag : bool;
  documentation_incomplete_flag : bool;
  g_claim_status : Z;
  g_denial_reason_code : option string;
  paid_amount : Q
}.

(** The value written in the [paid_amount] column: the column is a
    non-nullable [Float64], so every row carries a value. *)
Definition paid_amount_cell (c : claim) : option Q := Some (paid_amount c).

(** The probability of lines 165-196 and the reason override it sets. *)
Definition denial_probability_and_override (base : Q) (specialty : string)
  (prior_authorization_obtained coding_mismatch documentation_incomplete : bool)
  (submission_lag_days : Z) (u0 u1 : Q) : Q * option string :=
  let '(p, ov) :=
    if prior_authorization_obtained then (base, None)
    else (py_min (base * (35 # 10)) (90 # 100), Some "NO_AUTH") in
  let p := if existsb (String.eqb specialty) high_denial_specialties
           then (p * (14 # 10))%Q else p in
  let '(p, ov) :=
    if coding_mismatch then
      ((p * (18 # 10))%Q,
       match ov with
       | None => if Claude.Qltb u0 (7 # 10) then Some "CODING_MISMATCH" else None
       | Some _ => ov
       end)
    else (p, ov) in
  let '(p, ov) :=
    if documentation_incomplete then
      ((p * (17 # 10))%Q,
       match ov with
       | None => if Claude.Qltb u1 (6 # 10) then Some "INCOMPLETE_DOCS" else None
       | Some _ => ov
       end)
    else (p, ov) in
  let p := if submission_lag_days >? 20 then (p * (105 # 100))%Q
           else if submission_lag_days >? 10 then (p * (102 # 100))%Q else p in
  (py_max (1 # 100) (py_min p (95 # 100)), ov).

Definition gen_claim (START_DATE END_DATE : Z) (e : env) (i : nat) (d : claim_draws)
  : claim :=
  let total_days := END_DATE - START_DATE in
  let pid := Claude.choice (patient_ids e) (gd_patient d) "" in
  let vid := Claude.choice (provider_ids e) (gd_provider d) "" in
  let yid := Claude.choice (payer_ids e) (gd_payer d) "" in
  let specialty := dict_get_default (provider_specialty_map e) vid "" in
  let service := START_DATE + Claude.py_randint 0 total_days (gd_service d) in
  let lag := Claude.py_randint 1 30 (gd_lag d) in
  let submission := Z.min (service + lag) END_DATE in
  let charge := py_round (Claude.py_uniform 50 5000 (gd_charge d)) 2 in
  let obtained := Claude.Qltb (15 # 100) (gd_auth d) in
  let coding := Claude.Qltb (gd_coding d) (8 # 100) in
  let docs := Claude.Qltb (gd_docs d) (10 # 100) in
  let '(p, ov) :=
    denial_probability_and_override (dict_get_default (payer_denial_rates e) yid 0%Q)
      specialty obtained coding docs lag (gd_override0 d) (gd_override1 d) in
  let is_denied := Claude.Qltb (gd_determiner d) p in
  let status := if is_denied then CLAIM_STATUS_DENIED else CLAIM_STATUS_APPROVED in
  let chosen := py_choices (map fst denial_weights) (map snd denial_weights)
                           (gd_reason d) "" in
  let '(reason, paid) :=
    if status =? CLAIM_STATUS_DENIED then
      (Some (match ov with
             | Some o => if Claude.Qltb (gd_use_override d) (85 # 100) then o else chosen
             | None => chosen
             end), 0%Q)
    else (None, py_round (charge * Claude.py_uniform (70 # 100) (95 # 100) (gd_paid d)) 2) in
  {| g_claim_id := append "CLAIM_" (zfill (str_of_nat (i + 1)) 9);
     g_patient_id := pid;
     g_provider_id := vid;
     g_payer_id := yid;
     provider_specialty := specialty;
     date_of_service := service;
     claim_submission_date := submission;
     submission_lag_days := lag;
     cpt_code := py_choices cpt_codes cpt_weights (gd_cpt d) "";
     icd10_code := py_choices icd10_codes icd10_weights (gd_icd10 d) "";
     claim_charge_amount := charge;
     prior_authorization_obtained := obtained;
     coding_mismatch_flag := coding;
     documentation_incomplete_flag := docs;
     g_claim_status := status;
     g_denial_reason_code := reason;
     paid_amount := paid |}.

(** ** The set-up before the loop and the loop itself *)

Definition specialties : list string :=
  ["Internal Medicine"; "Pediatrics"; "Family Practice"; "Cardiology";
   "Dermatology"; "Radiology"; "Emergency Medicine"; "Psychiatry";
   "General Surgery"; "Orthopedics"].

Definition BASE_DENIAL_RATE_RANGE : Q * Q := (18 # 100, 20 # 100).

(** [[f"{prefix}{i+1:0{w}d}" for i in range(n)]]. *)
Definition make_ids (prefix : string) (w n : nat) : list string :=
  map (fun i => append prefix (zfill (str_of_nat (i + 1)) w)) (seq 0 n).

(** [{prov_id: random.choice(specialties) for prov_id in provider_ids}],
    one drawn index per provider. *)
Definition build_provider_specialty_map (provider_ids : list string) (rs : list nat)
  : list (string * string) :=
  fold_left (fun m '(prov_id, r) => dict_set m prov_id (Claude.choice specialties r ""))
            (combine provider_ids rs) [].

(** The [payer_denial_rates] loop (lines 96-106), one [random.uniform]
    draw per payer; [high_rate_payers] is the
    [random.sample(payer_ids, num_high_rate_payers)]. *)
Definition build_payer_denial_rates (payer_ids high_rate_payers : list string)
  (us : list Q) : list (string * Q) :=
  fold_left
    (fun rates '(payer, u) =>
       dict_set rates payer
         (if existsb (String.eqb payer) high_rate_payers
          then Claude.py_uniform (snd BASE_DENIAL_RATE_RANGE * (11 # 10))
                                 (snd BASE_DENIAL_RATE_RANGE * (15 # 10)) u
          else Claude.py_uniform (fst BASE_DENIAL_RATE_RANGE * (8 # 10))
                                 (snd BASE_DENIAL_RATE_RANGE * (12 # 10)) u))
    (combine payer_ids us) [].

(** The id lists and lookup tables of lines 65-106. *)
Definition make_env (NUM_UNIQUE_PATIENTS NUM_UNIQUE_PROVIDERS NUM_UNIQUE_PAYERS : nat)
  (specialty_draws : list nat) (high_rate_payers : list string) (rate_draws : list Q)
  : env :=
  let patient_ids := make_ids "PAT_" 8 NUM_UNIQUE_PATIENTS in
  let provider_ids := make_ids "PROV_" 5 NUM_UNIQUE_PROVIDERS in
  let payer_ids := make_ids "PAYER_" 2 NUM_UNIQUE_PAYERS in
  {| payer_denial_rates := build_payer_denial_rates payer_ids high_rate_payers rate_draws;
     provider_specialty_map := build_provider_specialty_map provider_ids specialty_draws;
     patient_ids := patient_ids;
     provider_ids := provider_ids;
     payer_ids := payer_ids |}.

(** The loop of lines 132-242: [claims_data.append(...)] and the running
    [denial_count]. *)
Fixpoint claims_loop (START_DATE END_DATE : Z) (e : env) (i : nat)
  (ds : list claim_draws) (claims_data : list claim) (denial_count : nat)
  : list claim * nat :=
  match ds with
  | [] => (claims_data, denial_count)
  | d :: ds' =>
      let c := gen_claim START_DATE END_DATE e i d in
      claims_loop START_DATE END_DATE e (S i) ds' (claims_data ++ [c])
        (if g_claim_status c =? CLAIM_STATUS_DENIED then S denial_count
         else denial_count)
  end.

(** The whole loop, one draw record per claim ([total_claims] of them). *)
Definition generate_claims (START_DATE END_DATE : Z) (e : env) (ds : list claim_draws)
  : list claim * nat :=
  claims_loop START_DATE END_DATE e 0%nat ds [] 0%nat.

End Gemini.

(** * The composition rule as the specification states it *)

Module Spec.

(** Start at [payer base denial rate * specialty multiplier], add 0.60 when
    prior authorization was required and not obtained, 0.20 for an
    out-of-network provider, 0.15 for a high-denial-risk procedure and 0.30
    when the submission lag exceeds 80% of the timely-filing limit, then
    cap the sum at 0.95. *)
Definition spec_denial_probability (payer_base_rate specialty_multiplier : Q)
  (prior_auth_missing out_of_network high_risk : bool) (lag limit : Z) : Q :=
  let composed :=
    (payer_base_rate * specialty_multiplier
     + (if prior_auth_missing then 60 # 100 else 0)
     + (if out_of_network then 20 # 100 else 0)
     + (if high_risk then 15 # 100 else 0)
     + (if Qlt_le_dec ((8 # 10) * inject_Z limit) (inject_Z lag) then 30 # 100 else 0))%Q in
  Qmin composed (95 # 100).

End Spec.

(** * Sample runs

    Concrete configurations and draws, used to exercise the generators. *)

Module Samples.
Import Claude.

Definition today_2026 : Z := days_from_civil 2026 10 16.
Definition today_2027 : Z := days_from_civil 2027 10 16.

(** [CONFIG] with another payer count and target denial rate. *)
Definition config_with (n : nat) (rate : Q) : config := {|
  start_date := start_date CONFIG;
  end_date := end_date CONFIG;
  num_patients := 1;
  num_providers := 3;
  num_payers := n;
  claim_status_format := claim_status_format CONFIG;
  overall_denial_rate := rate;
  denial_reason_distribution := denial_reason_distribution CONFIG
|}.

Definition small_config : config := config_with 20 (19 # 100).

Definition patient_draws_1 : list patient_draws :=
  [{| pd_gender := 1; pd_dob := 0; pd_insurance := 20 |}].

(** An in-network cardiologist, an out-of-network pediatrician and an
    in-network pediatrician. *)
Definition provider_draws_3 : list provider_draws :=
  [{| vd_specialty := 2; vd_network := 0 |}; {| vd_specialty := 6; vd_network := 1 |};
   {| vd_specialty := 6; vd_network := 0 |}].

Definition payer_draws_20 : list payer_draws :=
  repeat {| yd_prior_auth := ["70450"; "97110"]; yd_timely_filing := 1 |} 20.

(** The draws of one claim; [procedure] 0 is 99213 (no prior
    authorization, not high risk), 11 is 70450. *)
Definition draws (provider payer procedure place : nat) (lag auth denial : Q)
  (timely reason : nat) : claim_draws := {|
  cd_patient := 0; cd_provider := provider; cd_payer := payer; cd_service := 100;
  cd_lag := lag; cd_primary := 3; cd_has_secondary := 1 # 10; cd_secondary := 3;
  cd_procedure := procedure; cd_place := place; cd_has_revenue := 1 # 2;
  cd_revenue := 0; cd_auth := auth; cd_base_charge := 1 # 3;
  cd_hospital_factor := 1 # 2; cd_timely_filing := timely; cd_denial := denial;
  cd_network_coin := 3 # 4; cd_reason := reason; cd_reason_weighted := 1 # 2;
  cd_reimbursement := 1 # 2; cd_processing := 2; cd_frequency := 1 # 2
|}.

Definition run_2026 (cfg : config) (sel : list nat) (cds : list claim_draws) :=
  run cfg today_2026 patient_draws_1 provider_draws_3 sel payer_draws_20 cds.

Definition env_of (cfg : config) (sel : list nat) : env :=
  let '(pats, provs, pays, _) := run_2026 cfg sel [] in make_env pats provs pays.

Definition sample_env : env := env_of small_config (seq 0 20).

(** Denied for missing prior authorization: 70450 at payer INS001,
    authorization draw 0.9 (not obtained), inpatient place of service. *)
Definition denied_no_auth : claim_draws := draws 0 0 11 1 0 (9 # 10) (1 # 10) 0 1.

(** Approved: 99213, in network, denial draw 0.99. *)
Definition approved_office : claim_draws := draws 0 0 0 0 0 0 (99 # 100) 0 0.

(** Denied late claim: lag 90 against a 30-day limit, fallback pick 1. *)
Definition denied_late : claim_draws := draws 0 0 0 0 (99 # 100) 0 (1 # 10) 0 1.

(** The gemini loop on one patient, provider and payer. *)
Definition gemini_env : Gemini.env := {|
  Gemini.payer_denial_rates := [("PAYER_01", 19 # 100)];
  Gemini.provider_specialty_map := [("PROV_00001", "Cardiology")];
  Gemini.patient_ids := ["PAT_00000001"];
  Gemini.provider_ids := ["PROV_00001"];
  Gemini.payer_ids := ["PAYER_01"]
|}.

Definition gemini_draws (determiner : Q) : Gemini.claim_draws := {|
  Gemini.gd_patient := 0; Gemini.gd_provider := 0; Gemini.gd_payer := 0;
  Gemini.gd_service := 10; Gemini.gd_lag := 4; Gemini.gd_charge := 1 # 2;
  Gemini.gd_cpt := 1 # 2; Gemini.gd_icd10 := 1 # 2; Gemini.gd_auth := 1 # 2;
  Gemini.gd_coding := 1 # 2; Gemini.gd_docs := 1 # 2; Gemini.gd_reason := 1 # 2;
  Gemini.gd_determiner := determiner; Gemini.gd_override0 := 1 # 2;
  Gemini.gd_override1 := 1 # 2; Gemini.gd_paid := 1 # 2;
  Gemini.gd_use_override := 1 # 2
|}.

(** A one-payer configuration with a 1% target denial rate; the payer
    drawn is Self-Pay (modifier 0.7). *)
Definition low_rate_config : config := config_with 1 (1 # 100).
Definition low_rate_env : env := env_of low_rate_config [18%nat].

(** 99213 by the in-network pediatrician, denial draw 0.0057. *)
Definition low_rate_draws : claim_draws := draws 2 0 0 0 0 0 (57 # 10000) 0 0.

(** [CONFIG] asking for 21 payers, one more than [payer_info] holds. *)
Definition config_21 : config := config_with 21 (19 # 100).
Definition env_21 : env := env_of config_21 (seq 0 20).

(** A claim whose payer draw is [randint(1, 21) = 21]. *)
Definition payer_21_draws : claim_draws := draws 0 20 0 0 0 0 (99 # 100) 0 0.

Definition gemini_start : Z := days_from_civil 2022 1 1.
Definition gemini_end : Z := days_from_civil 2024 12 31.


End Samples.

(** * Proofs *)

(** ** Rounding *)

Lemma round_half_even_bound (q : Q) :
  (- (1 # 2) <= inject_Z (round_half_even q) - q <= 1 # 2)%Q.
Proof.
  unfold round_half_even.
  pose proof (Qfloor_le q) as Hlo. pose proof (Qlt_floor q) as Hhi.
  rewrite inject_Z_plus in Hhi.
  generalize dependent (Qfloor q). intros f Hlo Hhi.
  assert (E1 : inject_Z 1 == 1) by reflexivity.
  destruct (Qcompare_spec (q - inject_Z f) (1 # 2)) as [E|E|E].
  - destruct (Z.even f); [|rewrite inject_Z_plus]; lra.
  - lra.
  - rewrite inject_Z_plus; lra.
Qed.

Lemma py_round2_bound (q : Q) : (- (1 # 200) <= py_round q 2 - q <= 1 # 200)%Q.
Proof.
  unfold py_round.
  change (inject_Z (10 ^ Z.of_nat 2)) with (inject_Z 100).
  pose proof (round_half_even_bound (q * inject_Z 100)) as [H1 H2].
  set (r := inject_Z (round_half_even (q * inject_Z 100))) in *.
  change (r / inject_Z 100)%Q with (r * (1 # 100))%Q.
  change (inject_Z 100) with (100 # 1) in H1, H2.
  lra.
Qed.

(** ** Random-choice helpers *)

Lemma bisect_pick_In {A} (pop : list A) (ws : list Q) (acc x : Q) (last : A) :
  In (bisect_pick pop ws acc x last) (last :: pop).
Proof.
  revert ws acc last.
  induction pop as [|p pop IH]; intros ws acc last; destruct ws as [|w ws]; simpl; auto.
  destruct (Qlt_le_dec x (acc + w)); [now right; left|].
  destruct (IH ws (acc + w)%Q p) as [E|E]; [now right; left; symmetry|now right; right].
Qed.

Lemma py_choices_In {A} (pop : list A) (ws : list Q) (u : Q) (dflt : A) :
  In (py_choices pop ws u dflt) (dflt :: pop).
Proof. apply bisect_pick_In. Qed.

Lemma choice_In {A} (seq : list A) (r : nat) (dflt : A) :
  seq <> [] -> In (Claude.choice seq r dflt) seq.
Proof.
  intros Hne. unfold Claude.choice, py_choice. apply nth_In.
  apply Nat.mod_upper_bound. destruct seq; [congruence|discriminate].
Qed.

Lemma py_randint_range (a b : Z) (r : nat) :
  a <= b -> a <= Claude.py_randint a b r <= b.
Proof.
  intros H. unfold Claude.py_randint.
  pose proof (Z.mod_pos_bound (Z.of_nat r) (b - a + 1)). lia.
Qed.

Lemma unit_draw_ok_spec (u : Q) :
  Claude.unit_draw_ok u = true -> (0 <= u /\ u < 1)%Q.
Proof.
  unfold Claude.unit_draw_ok. rewrite andb_true_iff, negb_true_iff.
  intros [H1 H2]. apply Qle_bool_iff in H1. split; [exact H1|].
  apply Qnot_le_lt. intros H. apply Qle_bool_iff in H. congruence.
Qed.

Lemma Qltb_spec (x y : Q) : Claude.Qltb x y = true <-> (x < y)%Q.
Proof.
  unfold Claude.Qltb. rewrite negb_true_iff. split.
  - intros H. apply Qnot_le_lt. intros H'. apply Qle_bool_iff in H'. congruence.
  - intros H. destruct (Qle_bool y x) eqn:E; [|reflexivity].
    apply Qle_bool_iff in E. lra.
Qed.

Lemma Qltb_compat (x y y' : Q) : (y == y')%Q -> Claude.Qltb x y = Claude.Qltb x y'.
Proof.
  intros E. destruct (Claude.Qltb x y) eqn:H1, (Claude.Qltb x y') eqn:H2; auto.
  - apply Qltb_spec in H1. rewrite E in H1. apply Qltb_spec in H1. congruence.
  - apply Qltb_spec in H2. rewrite <- E in H2. apply Qltb_spec in H2. congruence.
Qed.

(** ** Facts about the claude generator *)

Module ClaudeFacts.
Import Claude.

Lemma status_is_denied_format (cfg : config) (b : bool) :
  status_is_denied cfg (format_status cfg b) = b.
Proof.
  unfold status_is_denied, format_status.
  destruct (String.eqb (claim_status_format cfg) "numeric"); [destruct b; reflexivity|].
  destruct (String.eqb (claim_status_format cfg) "boolean"); destruct b; reflexivity.
Qed.

Lemma In_generate_claims_from (cfg : config) (e : env) (ds : list claim_draws) :
  forall (j : nat) (c : claim), In c (generate_claims_from cfg e j ds) ->
  exists i d, In d ds /\ c = gen_claim cfg e i d.
Proof.
  induction ds as [|d ds IH]; simpl; intros j c H; [contradiction|].
  destruct H as [<-|H].
  - exists j, d. auto.
  - destruct (IH (S j) c H) as (i & d' & Hd & ->). exists i, d'. auto.
Qed.

Lemma In_generate_claims (cfg : config) (e : env) (ds : list claim_draws) (c : claim) :
  In c (generate_claims cfg e ds) -> exists i d, In d ds /\ c = gen_claim cfg e i d.
Proof. apply In_generate_claims_from. Qed.

(** Unfold one claim and split on the denial draw. *)
Ltac split_denial d :=
  match goal with
  | |- context [Qltb (cd_denial d) ?p] => destruct (Qltb (cd_denial d) p) eqn:?Hden
  end.

Lemma gen_claim_outcome (cfg : config) (e : env) (i : nat) (d : claim_draws) :
  let c := gen_claim cfg e i d in
  (status_is_denied cfg (claim_status c) = true /\ denial_reason_code c <> None /\
   payment_amount c = None) \/
  (status_is_denied cfg (claim_status c) = false /\ denial_reason_code c = None /\
   payment_amount c <> None).
Proof.
  unfold gen_claim. cbv zeta. cbn [claim_status denial_reason_code payment_amount].
  split_denial d; rewrite status_is_denied_format; [left|right]; repeat split;
    discriminate.
Qed.

Lemma draw_submission_lag_pos (d : claim_draws) : 1 <= draw_submission_lag d.
Proof.
  pose proof (py_choices_In submission_lag_days submission_lag_weights (cd_lag d) 1) as H.
  unfold draw_submission_lag. simpl in H. intuition lia.
Qed.

Lemma no_prior_auth_codes_category (r : nat) :
  category_for_denial_code (choice (category_codes "no_prior_auth") r "")
  = Some "no_prior_auth".
Proof.
  change (category_codes "no_prior_auth") with ["C1"; "C2"; "C3"; "C4"].
  pose proof (choice_In ["C1"; "C2"; "C3"; "C4"] r "") as H.
  destruct H as [<-|[<-|[<-|[<-|[]]]]]; try discriminate; reflexivity.
Qed.

(** C4: a denied claim whose procedure needed a prior authorization that
    was not obtained carries a denial-reason code of the "no_prior_auth"
    category, whatever the other draws are. *)
Theorem no_prior_auth_reason_category (cfg : config) (e : env)
  (ds : list claim_draws) (c : claim) :
  In c (generate_claims cfg e ds) ->
  status_is_denied cfg (claim_status c) = true ->
  prior_auth_required c = true -> prior_auth_obtained c = false ->
  exists code, denial_reason_code c = Some code /\
               category_for_denial_code code = Some "no_prior_auth".
Proof.
  intros Hin. destruct (In_generate_claims _ _ _ _ Hin) as (i & d & _ & ->).
  unfold gen_claim. cbv zeta.
  cbn [claim_status denial_reason_code prior_auth_required prior_auth_obtained].
  split_denial d; rewrite status_is_denied_format; [|discriminate].
  intros _ Hreq Hobt. rewrite Hreq in *. rewrite Hobt.
  eexists. split; [reflexivity|]. apply no_prior_auth_codes_category.
Qed.

Lemma no_prior_auth_reason_category_witness :
  exists code, denial_reason_code (gen_claim Samples.small_config Samples.sample_env 0
                                     Samples.denied_no_auth) = Some code /\
               category_for_denial_code code = Some "no_prior_auth".
Proof.
  apply (no_prior_auth_reason_category Samples.small_config Samples.sample_env
           [Samples.denied_no_auth]).
  - left. reflexivity.
  - vm_compute. reflexivity.
  - vm_compute. reflexivity.
  - vm_compute. reflexivity.
Defined.

(** C5: service date <= submission date <= processing date, and the
    submission and processing dates stay within the configured end date. *)
Theorem claim_dates_ordered (cfg : config) (e : env) (ds : list claim_draws)
  (c : claim) :
  start_date cfg <= end_date cfg ->
  In c (generate_claims cfg e ds) ->
  service_date c <= submission_date c /\ submission_date c <= processing_date c /\
  submission_date c <= end_date cfg /\ processing_date c <= end_date cfg.
Proof.
  intros Hcfg Hin. destruct (In_generate_claims _ _ _ _ Hin) as (i & d & _ & ->).
  unfold gen_claim. cbv zeta. cbn [service_date submission_date processing_date].
  pose proof (py_randint_range 0 (end_date cfg - start_date cfg) (cd_service d)).
  pose proof (py_randint_range 3 30 (cd_processing d)).
  pose proof (draw_submission_lag_pos d).
  rewrite Z.gtb_ltb.
  match goal with
  | |- context [?a <? ?b] => destruct (Z.ltb_spec a b)
  end; lia.
Qed.

Lemma claim_dates_ordered_witness :
  let c := gen_claim CONFIG Samples.sample_env 0 Samples.denied_late in
  start_date CONFIG <= end_date CONFIG /\
  service_date c <= submission_date c /\ submission_date c <= processing_date c /\
  submission_date c <= end_date CONFIG /\ processing_date c <= end_date CONFIG.
Proof.
  assert (H : start_date CONFIG <= end_date CONFIG) by (vm_compute; discriminate).
  split; [exact H|].
  apply (claim_dates_ordered CONFIG Samples.sample_env [Samples.denied_late]); [exact H|].
  left. reflexivity.
Defined.

Lemma claim_draws_ok_spec (d : claim_draws) :
  claim_draws_ok d = true ->
  (0 <= cd_base_charge d < 1)%Q /\ (0 <= cd_hospital_factor d < 1)%Q /\
  (0 <= cd_reimbursement d < 1)%Q.
Proof.
  unfold claim_draws_ok. simpl. rewrite !andb_true_iff.
  intros (_ & _ & _ & _ & H1 & H2 & _ & _ & _ & H3 & _ & _).
  apply unit_draw_ok_spec in H1, H2, H3. auto.
Qed.

Lemma charge_amount_lower (b : bool) (u v : Q) :
  (0 <= u < 1)%Q -> (0 <= v < 1)%Q ->
  (4999 # 100 < py_round (if b then py_uniform 50 5000 u * py_uniform (3 # 2) 3 v
                          else py_uniform 50 5000 u) 2)%Q.
Proof.
  intros [Hu0 Hu1] [Hv0 Hv1].
  match goal with |- context [py_round ?x 2] => pose proof (py_round2_bound x) end.
  destruct b; unfold py_uniform in *; nra.
Qed.

Lemma payment_le_charge (ch w : Q) :
  (1 # 10 <= ch)%Q -> (0 <= w < 1)%Q ->
  (py_round (ch * py_uniform (1 # 2) (95 # 100) w) 2 <= ch)%Q.
Proof.
  intros Hch [Hw0 Hw1].
  pose proof (py_round2_bound (ch * py_uniform (1 # 2) (95 # 100) w)).
  unfold py_uniform in *. nra.
Qed.

(** C7: the charge is positive; an approved claim's payment is at most the
    charge and payment plus patient responsibility is the charge within
    0.01; a denied claim leaves the whole charge to the patient. *)
Theorem claim_amounts_consistent (cfg : config) (e : env) (ds : list claim_draws)
  (c : claim) :
  Forall (fun d => claim_draws_ok d = true) ds ->
  In c (generate_claims cfg e ds) ->
  (0 < charge_amount c)%Q /\
  (status_is_denied cfg (claim_status c) = false ->
   exists pay, payment_amount c = Some pay /\ (pay <= charge_amount c)%Q /\
     (- (1 # 100) <= pay + patient_responsibility c - charge_amount c <= 1 # 100)%Q) /\
  (status_is_denied cfg (claim_status c) = true ->
   patient_responsibility c = charge_amount c).
Proof.
  intros Hok Hin. destruct (In_generate_claims _ _ _ _ Hin) as (i & d & Hd & ->).
  rewrite Forall_forall in Hok.
  destruct (claim_draws_ok_spec d (Hok d Hd)) as (Hb & Hf & Hr).
  unfold gen_claim. cbv zeta.
  cbn [charge_amount claim_status payment_amount patient_responsibility].
  match goal with
  | |- context [py_round (if ?b then ?x else ?y) 2] =>
      pose proof (charge_amount_lower b _ _ Hb Hf) as Hch;
      set (ch := py_round (if b then x else y) 2) in *
  end.
  split; [lra|].
  split_denial d; rewrite status_is_denied_format; cbv beta iota;
    (split; intros H; [|try discriminate]); try discriminate; [reflexivity|].
  eexists. split; [reflexivity|].
  pose proof (payment_le_charge ch (cd_reimbursement d) ltac:(lra) Hr).
  split; [assumption|].
  match goal with
  | |- context [py_round (ch - ?pay) 2] => pose proof (py_round2_bound (ch - pay))
  end.
  lra.
Qed.

Lemma claim_amounts_consistent_witness :
  let c := gen_claim CONFIG Samples.sample_env 0 Samples.approved_office in
  claim_draws_ok Samples.approved_office = true /\
  (0 < charge_amount c)%Q /\
  (status_is_denied CONFIG (claim_status c) = false ->
   exists pay, payment_amount c = Some pay /\ (pay <= charge_amount c)%Q /\
     (- (1 # 100) <= pay + patient_responsibility c - charge_amount c <= 1 # 100)%Q) /\
  (status_is_denied CONFIG (claim_status c) = true ->
   patient_responsibility c = charge_amount c).
Proof.
  assert (H : claim_draws_ok Samples.approved_office = true) by (vm_compute; reflexivity).
  split; [exact H|].
  apply (claim_amounts_consistent CONFIG Samples.sample_env [Samples.approved_office]).
  - constructor; [exact H|constructor].
  - left. reflexivity.
Defined.

Lemma denial_probability_spec (b m : Q) (na oon hi : bool) (lag lim : Z) :
  (denial_probability b m na oon hi lag lim
   == Spec.spec_denial_probability b m na oon hi lag lim)%Q.
Proof.
  unfold denial_probability, Spec.spec_denial_probability, py_min.
  destruct (Qltb (inject_Z lim * (8 # 10)) (inject_Z lag)) eqn:E;
    [apply Qltb_spec in E|];
  destruct (Qlt_le_dec ((8 # 10) * inject_Z lim) (inject_Z lag)) as [L|L];
  try (exfalso; lra);
  try (assert (E' : Qltb (inject_Z lim * (8 # 10)) (inject_Z lag) = true)
         by (apply Qltb_spec; lra); congruence);
  destruct na, oon, hi;
  match goal with
  | |- context [Qmin ?x (95 # 100)] =>
      destruct (Qlt_le_dec (95 # 100) x);
      [rewrite (Q.min_r x (95 # 100)) by lra | rewrite (Q.min_l x (95 # 100)) by lra]
  end;
  try match goal with
      | |- context [Qlt_le_dec (95 # 100) ?x] => destruct (Qlt_le_dec (95 # 100) x)
      end; lra.
Qed.

(** C2: when the claim's payer and provider are in the lookup tables, the
    claim is denied exactly when the denial draw is below the payer's base
    denial rate times the specialty multiplier plus the prior-authorization,
    network, high-risk-procedure and timely-filing increments, capped at
    0.95; the timely-filing limit is the one drawn for this claim. *)
Theorem denial_decision_composition (cfg : config) (e : env) (i : nat)
  (d : claim_draws) (b m : Q) (ns : string) :
  let c := gen_claim cfg e i d in
  dict_get (payer_base_denial_rates e) (c_payer_id c) = Some b ->
  dict_get (provider_denial_modifiers e) (c_provider_id c) = Some m ->
  dict_get (provider_network_status e) (c_provider_id c) = Some ns ->
  status_is_denied cfg (claim_status c) =
  Qltb (cd_denial d)
    (Spec.spec_denial_probability b m
       (prior_auth_required c && negb (prior_auth_obtained c))
       (String.eqb ns "Out-of-Network")
       (existsb (String.eqb (procedure_code c)) high_denial_procedures)
       (draw_submission_lag d) (draw_timely_filing_limit d)).
Proof.
  unfold gen_claim. cbv zeta.
  cbn [claim_status c_payer_id c_provider_id prior_auth_required prior_auth_obtained
       procedure_code].
  intros Hb Hm Hns.
  rewrite status_is_denied_format.
  unfold dict_get_default. rewrite Hb, Hm, Hns.
  apply Qltb_compat. apply denial_probability_spec.
Qed.

Lemma denial_decision_composition_witness :
  let c := gen_claim CONFIG Samples.sample_env 0 Samples.denied_no_auth in
  dict_get (payer_base_denial_rates Samples.sample_env) (c_payer_id c) = Some (190 # 1000) /\
  dict_get (provider_denial_modifiers Samples.sample_env) (c_provider_id c)
    = Some (6 # 5) /\
  dict_get (provider_network_status Samples.sample_env) (c_provider_id c)
    = Some "In-Network" /\
  status_is_denied CONFIG (claim_status c) =
  Qltb (cd_denial Samples.denied_no_auth)
    (Spec.spec_denial_probability (190 # 1000) (6 # 5)
       (prior_auth_required c && negb (prior_auth_obtained c))
       (String.eqb "In-Network" "Out-of-Network")
       (existsb (String.eqb (procedure_code c)) high_denial_procedures)
       (draw_submission_lag Samples.denied_no_auth)
       (draw_timely_filing_limit Samples.denied_no_auth)).
Proof.
  assert (H1 : dict_get (payer_base_denial_rates Samples.sample_env)
                 (c_payer_id (gen_claim CONFIG Samples.sample_env 0 Samples.denied_no_auth))
               = Some (190 # 1000)) by (vm_compute; reflexivity).
  assert (H2 : dict_get (provider_denial_modifiers Samples.sample_env)
                 (c_provider_id (gen_claim CONFIG Samples.sample_env 0 Samples.denied_no_auth))
               = Some (6 # 5)) by (vm_compute; reflexivity).
  assert (H3 : dict_get (provider_network_status Samples.sample_env)
                 (c_provider_id (gen_claim CONFIG Samples.sample_env 0 Samples.denied_no_auth))
               = Some "In-Network") by (vm_compute; reflexivity).
  split; [exact H1|]. split; [exact H2|]. split; [exact H3|].
  exact (denial_decision_composition CONFIG Samples.sample_env 0 Samples.denied_no_auth
           _ _ _ H1 H2 H3).
Defined.

End ClaudeFacts.

(** ** Facts about the gemini loop *)

Module GeminiFacts.
Import Gemini.

Lemma gemini_draws_ok_spec (d : claim_draws) :
  claim_draws_ok d = true -> (0 <= gd_charge d < 1)%Q /\ (0 <= gd_paid d < 1)%Q.
Proof.
  unfold claim_draws_ok. simpl. rewrite !andb_true_iff.
  intros (H1 & _ & _ & _ & _ & _ & _ & _ & _ & _ & H2 & _).
  apply unit_draw_ok_spec in H1, H2. auto.
Qed.

Lemma probability_clamped (base : Q) (specialty : string) (ob cm di : bool) (lag : Z)
  (u0 u1 : Q) :
  (1 # 100 <= fst (denial_probability_and_override base specialty ob cm di lag u0 u1)
   <= 95 # 100)%Q.
Proof.
  unfold denial_probability_and_override.
  destruct ob, cm, di; cbv beta iota zeta; cbn [fst]; unfold py_max, py_min;
  repeat match goal with
         | |- context [Qlt_le_dec ?a ?b] => destruct (Qlt_le_dec a b)
         end; lra.
Qed.

(** A denied row has a reason code and [paid_amount = 0.0]; an approved row
    has no reason code and a positive [paid_amount]. *)
Lemma gemini_claim_outcome (START_DATE END_DATE : Z) (e : env) (i : nat)
  (d : claim_draws) :
  claim_draws_ok d = true ->
  let c := gen_claim START_DATE END_DATE e i d in
  (g_claim_status c = CLAIM_STATUS_DENIED /\ g_denial_reason_code c <> None /\
   paid_amount c == 0)%Q \/
  (g_claim_status c = CLAIM_STATUS_APPROVED /\ g_denial_reason_code c = None /\
   0 < paid_amount c)%Q.
Proof.
  intros Hok. destruct (gemini_draws_ok_spec d Hok) as [Hc Hp].
  unfold gen_claim. cbv zeta.
  match goal with
  | |- context [denial_probability_and_override ?a ?b ?c ?d' ?e' ?f ?g ?h] =>
      destruct (denial_probability_and_override a b c d' e' f g h) as [p ov]
  end.
  destruct (Claude.Qltb (gd_determiner d) p); cbn.
  - left. split; [reflexivity|]. split; [discriminate|reflexivity].
  - right. split; [reflexivity|]. split; [reflexivity|].
    match goal with
    | |- context [py_round (?ch * ?r) 2] =>
        pose proof (py_round2_bound (ch * r));
        pose proof (py_round2_bound (Claude.py_uniform 50 5000 (gd_charge d)));
        set (x := ch) in *; set (y := r) in *
    end.
    assert (Hx : (49 <= x)%Q).
    { subst x. unfold Claude.py_uniform in *. destruct Hc. lra. }
    assert (Hy : (7 # 10 <= y)%Q).
    { subst y. unfold Claude.py_uniform. destruct Hp. lra. }
    assert (Hxy : (0 <= (x - 49) * (y - (7 # 10)))%Q).
    { apply Qmult_le_0_compat; lra. }
    lra.
Qed.

End GeminiFacts.

(** ** Outcome columns, probability bounds and references across a run *)

Module RunFacts.
Import Claude.

(** C1 (as corrected): in the claude generator every claim has exactly one
    of a payment amount and a denial-reason code, the code exactly when the
    status reads denied; in the gemini loop the [paid_amount] column is
    always filled: a denied row has a reason code and [paid_amount = 0.0],
    an approved row has no reason code and a positive [paid_amount]. *)
Theorem payment_or_reason_by_variant :
  (forall (cfg : config) (e : env) (ds : list claim_draws) (c : claim),
     In c (generate_claims cfg e ds) ->
     xorb (is_some (payment_amount c)) (is_some (denial_reason_code c)) = true /\
     status_is_denied cfg (claim_status c) = is_some (denial_reason_code c)) /\
  (forall (START_DATE END_DATE : Z) (e : Gemini.env) (i : nat) (d : Gemini.claim_draws),
     Gemini.claim_draws_ok d = true ->
     let c := Gemini.gen_claim START_DATE END_DATE e i d in
     (Gemini.g_claim_status c = Gemini.CLAIM_STATUS_DENIED /\
      Gemini.g_denial_reason_code c <> None /\ Gemini.paid_amount c == 0)%Q \/
     (Gemini.g_claim_status c = Gemini.CLAIM_STATUS_APPROVED /\
      Gemini.g_denial_reason_code c = None /\ 0 < Gemini.paid_amount c)%Q).
Proof.
  split.
  - intros cfg e ds c Hin.
    destruct (ClaudeFacts.In_generate_claims _ _ _ _ Hin) as (i & d & _ & ->).
    destruct (ClaudeFacts.gen_claim_outcome cfg e i d) as [(H1 & H2 & H3)|(H1 & H2 & H3)];
      cbv zeta in *; rewrite H1.
    + rewrite H3. destruct (denial_reason_code _); [|congruence]. split; reflexivity.
    + rewrite H2. destruct (payment_amount _); [|congruence]. split; reflexivity.
  - apply GeminiFacts.gemini_claim_outcome.
Qed.

Lemma payment_or_reason_by_variant_witness :
  Gemini.claim_draws_ok (Samples.gemini_draws 0) = true /\
  let c := Gemini.gen_claim Samples.gemini_start Samples.gemini_end Samples.gemini_env 0
             (Samples.gemini_draws 0) in
  (Gemini.g_claim_status c = Gemini.CLAIM_STATUS_DENIED /\
   Gemini.g_denial_reason_code c <> None /\ Gemini.paid_amount c == 0)%Q \/
  (Gemini.g_claim_status c = Gemini.CLAIM_STATUS_APPROVED /\
   Gemini.g_denial_reason_code c = None /\ 0 < Gemini.paid_amount c)%Q.
Proof.
  assert (H : Gemini.claim_draws_ok (Samples.gemini_draws 0) = true)
    by (vm_compute; reflexivity).
  split; [exact H|].
  exact (proj2 payment_or_reason_by_variant _ _ _ _ _ H).
Defined.

(** C1 fails as stated on the gemini loop: a denied row there carries both
    a denial-reason code and a value in the [paid_amount] column (0.0). *)
Lemma gemini_denied_row_has_both :
  let c := Gemini.gen_claim Samples.gemini_start Samples.gemini_end Samples.gemini_env 0
             (Samples.gemini_draws 0) in
  Gemini.g_claim_status c = Gemini.CLAIM_STATUS_DENIED /\
  Gemini.g_denial_reason_code c = Some "ADMIN" /\
  Gemini.paid_amount_cell c = Some 0%Q /\
  xorb (is_some (Gemini.paid_amount_cell c)) (is_some (Gemini.g_denial_reason_code c))
  = false.
Proof. vm_compute. repeat split. Qed.

(** The claude cap, with no lower bound: the composed probability never
    exceeds 0.95. *)
Lemma denial_probability_le_cap (b m : Q) (no_auth oon high : bool) (lag limit : Z) :
  (denial_probability b m no_auth oon high lag limit <= 95 # 100)%Q.
Proof.
  unfold denial_probability, py_min.
  destruct (Qlt_le_dec _ _) as [H|H]; lra.
Qed.

(** C3 (as corrected): the gemini loop clamps the probability to
    [0.01, 0.95] before the Bernoulli draw; the claude generator only caps
    it at 0.95, with no lower clamp. *)
Theorem denial_probability_bounds_by_variant :
  (forall (base : Q) (specialty : string) (ob cm di : bool) (lag : Z) (u0 u1 : Q),
     (1 # 100 <= fst (Gemini.denial_probability_and_override base specialty ob cm di
                        lag u0 u1) <= 95 # 100)%Q) /\
  (forall (cfg : config) (e : env) (i : nat) (d : claim_draws),
     let c := gen_claim cfg e i d in
     let yid := c_payer_id c in
     let vid := c_provider_id c in
     (denial_probability
        (dict_get_default (payer_base_denial_rates e) yid (overall_denial_rate cfg))
        (dict_get_default (provider_denial_modifiers e) vid 1%Q)
        (prior_auth_required c && negb (prior_auth_obtained c))
        match dict_get (provider_network_status e) vid with
        | Some s => String.eqb s "Out-of-Network"
        | None => false
        end
        (existsb (String.eqb (procedure_code c)) high_denial_procedures)
        (draw_submission_lag d) (draw_timely_filing_limit d) <= 95 # 100)%Q /\
     status_is_denied cfg (claim_status c) =
     Qltb (cd_denial d)
       (denial_probability
          (dict_get_default (payer_base_denial_rates e) yid (overall_denial_rate cfg))
          (dict_get_default (provider_denial_modifiers e) vid 1%Q)
          (prior_auth_required c && negb (prior_auth_obtained c))
          match dict_get (provider_network_status e) vid with
          | Some s => String.eqb s "Out-of-Network"
          | None => false
          end
          (existsb (String.eqb (procedure_code c)) high_denial_procedures)
          (draw_submission_lag d) (draw_timely_filing_limit d))).
Proof.
  split.
  - apply GeminiFacts.probability_clamped.
  - intros cfg e i d. cbv zeta. split; [apply denial_probability_le_cap|].
    unfold gen_claim. cbv zeta.
    cbn [claim_status c_payer_id c_provider_id prior_auth_required prior_auth_obtained
         procedure_code].
    apply ClaudeFacts.status_is_denied_format.
Qed.

(** C3 fails as stated on the claude generator: with a configured overall
    denial rate of 1%, a Self-Pay claim by a pediatrician is denied with
    probability 0.0056 < 0.01, and the draw 0.0057 (below 0.01) approves it. *)
Lemma claude_probability_below_floor :
  let c := gen_claim Samples.low_rate_config Samples.low_rate_env 0
             Samples.low_rate_draws in
  dict_get (payer_base_denial_rates Samples.low_rate_env) (c_payer_id c)
    = Some (7 # 1000) /\
  dict_get (provider_denial_modifiers Samples.low_rate_env) (c_provider_id c)
    = Some (4 # 5) /\
  dict_get (provider_network_status Samples.low_rate_env) (c_provider_id c)
    = Some "In-Network" /\
  prior_auth_required c = false /\
  existsb (String.eqb (procedure_code c)) high_denial_procedures = false /\
  draw_submission_lag Samples.low_rate_draws = 1 /\
  draw_timely_filing_limit Samples.low_rate_draws = 30 /\
  (denial_probability (7 # 1000) (4 # 5) false false false 1 30 == 7 # 1250)%Q /\
  (7 # 1250 < 1 # 100)%Q /\
  (cd_denial Samples.low_rate_draws < 1 # 100)%Q /\
  status_is_denied Samples.low_rate_config (claim_status c) = false.
Proof.
  vm_compute. repeat split; reflexivity.
Qed.

(** A value of a catalog is returned by [random.choice] at some draw. *)
Lemma choice_surjective {A} (l : list A) (dflt x : A) :
  In x l -> exists r, choice l r dflt = x.
Proof.
  intros Hin. destruct (In_nth l x dflt Hin) as (n & Hn & Hx).
  exists n. unfold choice, py_choice. rewrite Nat.mod_small by exact Hn. exact Hx.
Qed.

(** C10: the secondary diagnosis is present when its draw is below 0.4 and
    is then [random.choice(diagnosis_codes)] from a draw of its own, the
    primary being the same choice from another draw; every catalog code
    can be drawn; and for every claim index some draw gives a secondary
    code equal to the primary one. *)
Theorem secondary_diagnosis_independent :
  (forall (cfg : config) (e : env) (i : nat) (d : claim_draws),
     secondary_diagnosis_code (gen_claim cfg e i d) =
       (if Qltb (cd_has_secondary d) (4 # 10)
        then Some (choice diagnosis_codes (cd_secondary d) "") else None) /\
     primary_diagnosis_code (gen_claim cfg e i d) =
       choice diagnosis_codes (cd_primary d) "") /\
  Forall (fun code => exists r, choice diagnosis_codes r "" = code) diagnosis_codes /\
  (forall (cfg : config) (e : env) (i : nat),
     exists d, claim_draws_ok d = true /\
       secondary_diagnosis_code (gen_claim cfg e i d) =
       Some (primary_diagnosis_code (gen_claim cfg e i d))).
Proof.
  split; [|split].
  - intros cfg e i d. split; reflexivity.
  - apply Forall_forall. intros code Hin. exact (choice_surjective _ _ _ Hin).
  - intros cfg e i. exists (Samples.draws 0 0 0 0 0 0 0 0 0).
    split; [vm_compute; reflexivity|reflexivity].
Qed.

(** C6: a denied claim with no missing authorization, an in-network
    provider and a 90-day submission lag past a 30-day limit falls to the
    fallback [random.choice(["A4", "H1"])]; drawing "H1", its code is not
    in [denial_reasons], has no category, and its description is the
    default "Unknown reason". *)
Theorem timely_filing_fallback_outside_catalog :
  let c := gen_claim CONFIG Samples.sample_env 0 Samples.denied_late in
  status_is_denied CONFIG (claim_status c) = true /\
  prior_auth_required c = false /\
  draw_submission_lag Samples.denied_late = 90 /\
  draw_timely_filing_limit Samples.denied_late = 30 /\
  denial_reason_code c = Some "H1" /\
  dict_get denial_reasons "H1" = None /\
  category_for_denial_code "H1" = None /\
  denial_reason_description c = Some "Unknown reason".
Proof.
  vm_compute. repeat split; reflexivity.
Qed.

(** C8: the generator's patients are a function of the run date as well as
    of the seed: with the same draws, the date of birth drawn by
    [fake.date_of_birth(minimum_age=1, maximum_age=95)] is 1930-10-17 when
    run on 2026-10-16 and 1931-10-17 when run on 2027-10-16. *)
Theorem patients_depend_on_run_date :
  map dob (generate_patients CONFIG Samples.today_2026 Samples.patient_draws_1)
    = [days_from_civil 1930 10 17] /\
  map dob (generate_patients CONFIG Samples.today_2027 Samples.patient_draws_1)
    = [days_from_civil 1931 10 17] /\
  generate_patients CONFIG Samples.today_2026 Samples.patient_draws_1 <>
  generate_patients CONFIG Samples.today_2027 Samples.patient_draws_1.
Proof.
  split; [vm_compute; reflexivity|split; [vm_compute; reflexivity|]].
  intros H. apply (f_equal (map dob)) in H. vm_compute in H. discriminate H.
Qed.

(** C9: with [num_payers = 21] the payer generator clamps to the 20
    profiles and produces INS001..INS020, while a claim and a patient draw
    [randint(1, 21)] and may reference INS021, which no payer record has. *)
Theorem payer_reference_past_clamp :
  let ids := map payer_id (generate_payers Samples.config_21 (seq 0 20)
                             Samples.payer_draws_20) in
  length ids = 20%nat /\
  existsb (String.eqb "INS021") ids = false /\
  c_payer_id (gen_claim Samples.config_21 Samples.env_21 0 Samples.payer_21_draws)
    = "INS021" /\
  dict_get (payer_base_denial_rates Samples.env_21) "INS021" = None /\
  map insurance_id (generate_patients Samples.config_21 Samples.today_2026
                      Samples.patient_draws_1) = ["INS021"].
Proof.
  vm_compute. repeat split; reflexivity.
Qed.

End RunFacts.

(** ** Ids, tables, rounding and weighted choices *)

Module Support.

(** Reading a [str(n)] back with [int]. *)
Lemma int_of_digits_str_of_nat_aux (fuel n : nat) (acc : string) :
  (n < fuel)%nat ->
  int_of_digits_from 0 (str_of_nat_aux fuel n acc) = int_of_digits_from n acc.
Proof.
  revert n acc. induction fuel as [|f IH]; intros n acc Hn; [lia|].
  cbn [str_of_nat_aux].
  assert (Hd : nat_of_ascii (ascii_of_nat (48 + n mod 10)) = (48 + n mod 10)%nat).
  { apply nat_ascii_embedding. pose proof (Nat.mod_upper_bound n 10). lia. }
  destruct (Nat.ltb n 10) eqn:Hlt.
  - apply Nat.ltb_lt in Hlt. cbn [int_of_digits_from]. rewrite Hd.
    rewrite Nat.mod_small by exact Hlt. f_equal. lia.
  - apply Nat.ltb_ge in Hlt. rewrite IH.
    + cbn [int_of_digits_from]. rewrite Hd. f_equal.
      pose proof (Nat.div_mod n 10). lia.
    + apply Nat.lt_le_trans with n; [apply Nat.div_lt; lia|lia].
Qed.

Lemma int_of_digits_zeros (k : nat) (s : string) :
  int_of_digits (append (zeros k) s) = int_of_digits s.
Proof. induction k as [|k IH]; [reflexivity|exact IH]. Qed.

(** [int(str(n).zfill(w)) == n]. *)
Lemma int_of_digits_zfill (n w : nat) : int_of_digits (zfill (str_of_nat n) w) = n.
Proof.
  unfold zfill. rewrite int_of_digits_zeros. unfold int_of_digits, str_of_nat.
  rewrite int_of_digits_str_of_nat_aux by lia. reflexivity.
Qed.

Lemma append_cancel_l (p s1 s2 : string) : append p s1 = append p s2 -> s1 = s2.
Proof.
  induction p as [|c p IH]; [exact id|]. intros H. injection H. exact IH.
Qed.

Lemma padded_id_inj (prefix : string) (w a b : nat) :
  append prefix (zfill (str_of_nat a) w) = append prefix (zfill (str_of_nat b) w) ->
  a = b.
Proof.
  intros H. apply append_cancel_l in H.
  rewrite <- (int_of_digits_zfill a w), <- (int_of_digits_zfill b w), H.
  reflexivity.
Qed.

(** The ids [prefix + str(i+1).zfill(w)] of a range are pairwise distinct. *)
Lemma padded_ids_NoDup (prefix : string) (w j n : nat) :
  NoDup (map (fun i => append prefix (zfill (str_of_nat (i + 1)) w)) (seq j n)).
Proof.
  apply Finite.Injective_map_NoDup; [|apply seq_NoDup].
  intros a b H. apply padded_id_inj in H. lia.
Qed.




Lemma dict_get_Some_In {V} (d : list (string * V)) (k : string) (v : V) :
  dict_get d k = Some v -> In (k, v) d.
Proof.
  induction d as [|[k' v'] d IH]; cbn; [discriminate|].
  destruct (String.eqb k k') eqn:E.
  - apply String.eqb_eq in E. subst. intros H. injection H as <-. now left.
  - intros H. right. exact (IH H).
Qed.

Lemma dict_get_In_key {V} (d : list (string * V)) (k : string) :
  In k (map fst d) -> exists v, dict_get d k = Some v.
Proof.
  induction d as [|[k' v'] d IH]; cbn; [tauto|].
  intros Hin. destruct (String.eqb k k') eqn:E; [eauto|].
  apply String.eqb_neq in E. apply IH. destruct Hin as [H|H]; [congruence|exact H].
Qed.



Lemma map_fst_combine {A B} (l : list A) (l' : list B) :
  (length l <= length l')%nat -> map fst (combine l l') = l.
Proof.
  revert l'. induction l as [|x l IH]; intros [|y l'] H; cbn in *; try lia; auto.
  f_equal. apply IH. lia.
Qed.

(** The weighted pick of [random.choices] lands in the population when
    the drawn point lies below the total weight. *)
Lemma bisect_pick_In_pop {A} (pop : list A) (ws : list Q) (acc x : Q) (last : A) :
  length pop = length ws -> (acc <= x)%Q -> (x < fold_left Qplus ws acc)%Q ->
  In (bisect_pick pop ws acc x last) pop.
Proof.
  revert ws acc last.
  induction pop as [|p pop IH]; intros [|w ws] acc last Hlen Hlo Hhi; cbn in *;
    try discriminate.
  - lra.
  - destruct (Qlt_le_dec x (acc + w)); [now left|].
    right. apply IH; auto.
Qed.

Lemma py_choices_In_pop {A} (pop : list A) (ws : list Q) (u : Q) (dflt : A) :
  length pop = length ws -> (0 < fold_left Qplus ws 0)%Q ->
  Claude.unit_draw_ok u = true -> In (py_choices pop ws u dflt) pop.
Proof.
  intros Hlen Hpos Hu. apply unit_draw_ok_spec in Hu as [H0 H1].
  unfold py_choices. apply bisect_pick_In_pop; [exact Hlen| |].
  - apply Qmult_le_0_compat; lra.
  - set (t := fold_left Qplus ws 0%Q) in *.
    assert (E : (u * t < 1 * t)%Q) by (apply Qmult_lt_r; lra). lra.
Qed.

(** [round(q)] stays on the same side of an integer bound. *)
Lemma round_half_even_ge (q : Q) (m : Z) :
  (inject_Z m <= q)%Q -> m <= round_half_even q.
Proof.
  intros H. pose proof (round_half_even_bound q) as [H1 _].
  destruct (Z.le_gt_cases m (round_half_even q)) as [|Hlt]; [assumption|].
  assert (Hz : round_half_even q + 1 <= m) by lia.
  rewrite Zle_Qle, inject_Z_plus in Hz. change (inject_Z 1) with 1%Q in Hz. lra.
Qed.

Lemma round_half_even_le (q : Q) (m : Z) :
  (q <= inject_Z m)%Q -> round_half_even q <= m.
Proof.
  intros H. pose proof (round_half_even_bound q) as [_ H2].
  destruct (Z.le_gt_cases (round_half_even q) m) as [|Hlt]; [assumption|].
  assert (Hz : m + 1 <= round_half_even q) by lia.
  rewrite Zle_Qle, inject_Z_plus in Hz. change (inject_Z 1) with 1%Q in Hz. lra.
Qed.

Lemma py_round_ge (q : Q) (n : nat) (m : Z) :
  (inject_Z m <= q * inject_Z (10 ^ Z.of_nat n))%Q ->
  (inject_Z m / inject_Z (10 ^ Z.of_nat n) <= py_round q n)%Q.
Proof.
  intros H. unfold py_round.
  assert (Hs : (0 < inject_Z (10 ^ Z.of_nat n))%Q).
  { change 0%Q with (inject_Z 0). rewrite <- Zlt_Qlt. apply Z.pow_pos_nonneg; lia. }
  apply round_half_even_ge in H. rewrite Zle_Qle in H.
  unfold Qdiv. apply Qmult_le_compat_r; [exact H|].
  apply Qlt_le_weak, Qinv_lt_0_compat, Hs.
Qed.

Lemma py_round_le (q : Q) (n : nat) (m : Z) :
  (q * inject_Z (10 ^ Z.of_nat n) <= inject_Z m)%Q ->
  (py_round q n <= inject_Z m / inject_Z (10 ^ Z.of_nat n))%Q.
Proof.
  intros H. unfold py_round.
  assert (Hs : (0 < inject_Z (10 ^ Z.of_nat n))%Q).
  { change 0%Q with (inject_Z 0). rewrite <- Zlt_Qlt. apply Z.pow_pos_nonneg; lia. }
  apply round_half_even_le in H. rewrite Zle_Qle in H.
  unfold Qdiv. apply Qmult_le_compat_r; [exact H|].
  apply Qlt_le_weak, Qinv_lt_0_compat, Hs.
Qed.

(** [round(q, 2)] of an amount between two whole-cent bounds. *)
Lemma py_round2_between (q : Q) (mlo mhi : Z) :
  (inject_Z mlo * (1 # 100) <= q <= inject_Z mhi * (1 # 100))%Q ->
  (inject_Z mlo * (1 # 100) <= py_round q 2 <= inject_Z mhi * (1 # 100))%Q.
Proof.
  intros [H1 H2]. split.
  - pose proof (py_round_ge q 2 mlo) as H.
    change (inject_Z (10 ^ Z.of_nat 2)) with (100 # 1) in H.
    unfold Qdiv in H. change (/ (100 # 1))%Q with (1 # 100) in H.
    apply H. lra.
  - pose proof (py_round_le q 2 mhi) as H.
    change (inject_Z (10 ^ Z.of_nat 2)) with (100 # 1) in H.
    unfold Qdiv in H. change (/ (100 # 1))%Q with (1 # 100) in H.
    apply H. lra.
Qed.


End Support.

(** ** More of the claude generator: entities, claim columns, statistics *)

Module ClaudeMore.
Import Claude Support.

Lemma generate_claims_from_ids (cfg : config) (e : env) (ds : list claim_draws) :
  forall j : nat,
  map claim_id (generate_claims_from cfg e j ds) =
  map (fun i => append "CLM" (zfill (str_of_nat (i + 1)) 10)) (seq j (length ds)).
Proof.
  induction ds as [|d ds IH]; intros j; [reflexivity|].
  cbn [generate_claims_from map length seq]. rewrite IH. reflexivity.
Qed.

Lemma generate_claims_from_length (cfg : config) (e : env) (ds : list claim_draws) :
  forall j : nat, length (generate_claims_from cfg e j ds) = length ds.
Proof.
  induction ds as [|d ds IH]; intros j; [reflexivity|]. cbn. rewrite IH. reflexivity.
Qed.

(** [generate_claims]: one claim per draw record, and the claim ids
    [CLM + str(i+1).zfill(10)] are pairwise distinct. *)
Theorem claim_ids_distinct (cfg : config) (e : env) (ds : list claim_draws) :
  length (generate_claims cfg e ds) = length ds /\
  NoDup (map claim_id (generate_claims cfg e ds)).
Proof.
  split; [apply generate_claims_from_length|].
  unfold generate_claims. rewrite generate_claims_from_ids. apply padded_ids_NoDup.
Qed.

Lemma generate_patients_from_ids (cfg : config) (today : Z) (ds : list patient_draws) :
  forall j : nat,
  map patient_id (generate_patients_from cfg today j ds) =
  map (fun i => append "P" (zfill (str_of_nat (i + 1)) 8)) (seq j (length ds)).
Proof.
  induction ds as [|d ds IH]; intros j; [reflexivity|].
  cbn [generate_patients_from map length seq]. rewrite IH. reflexivity.
Qed.

Lemma In_generate_patients_from (cfg : config) (today : Z) (ds : list patient_draws) :
  forall (j : nat) (p : patient), In p (generate_patients_from cfg today j ds) ->
  exists k d, In d ds /\ p = make_patient cfg today k d.
Proof.
  induction ds as [|d ds IH]; intros j p Hin; cbn in Hin; [contradiction|].
  destruct Hin as [<-|Hin].
  - exists j, d. split; [now left|reflexivity].
  - destruct (IH (S j) p Hin) as (k & d' & Hd & ->). exists k, d'.
    split; [now right|reflexivity].
Qed.

(** [generate_patients]: the patient ids [P + str(j+1).zfill(8)] are
    pairwise distinct and every gender is "M" or "F". *)
Theorem patient_ids_distinct (cfg : config) (today : Z) (ds : list patient_draws) :
  NoDup (map patient_id (generate_patients cfg today ds)) /\
  Forall (fun p => In (gender p) ["M"; "F"]) (generate_patients cfg today ds).
Proof.
  split.
  - unfold generate_patients. rewrite generate_patients_from_ids. apply padded_ids_NoDup.
  - apply Forall_forall. intros p Hin.
    destruct (In_generate_patients_from _ _ _ _ _ Hin) as (k & d & _ & ->).
    apply choice_In. discriminate.
Qed.

Lemma generate_providers_from_ids (ds : list provider_draws) :
  forall j : nat,
  map provider_id (generate_providers_from j ds) =
  map (fun i => append "DR" (zfill (str_of_nat (i + 1)) 7)) (seq j (length ds)).
Proof.
  induction ds as [|d ds IH]; intros j; [reflexivity|].
  cbn [generate_providers_from map length seq]. rewrite IH. reflexivity.
Qed.

Lemma In_generate_providers_from (ds : list provider_draws) :
  forall (j : nat) (v : provider), In v (generate_providers_from j ds) ->
  exists k d, v = make_provider k d.
Proof.
  induction ds as [|d ds IH]; intros j v Hin; cbn in Hin; [contradiction|].
  destruct Hin as [<-|Hin]; [eauto|exact (IH (S j) v Hin)].
Qed.

(** [generate_providers]: the provider ids [DR + str(i+1).zfill(7)] are
    pairwise distinct; each provider's specialty and denial modifier form a
    row of [specialties], and its network status is "In-Network" or
    "Out-of-Network". *)
Theorem provider_rows_well_formed (ds : list provider_draws) :
  NoDup (map provider_id (generate_providers ds)) /\
  Forall (fun v => In (specialty v, specialty_denial_modifier v) specialties /\
                   In (network_status v) ["In-Network"; "Out-of-Network"])
         (generate_providers ds).
Proof.
  split.
  - unfold generate_providers. rewrite generate_providers_from_ids.
    apply padded_ids_NoDup.
  - apply Forall_forall. intros v Hin.
    destruct (In_generate_providers_from _ _ _ Hin) as (k & d & ->).
    unfold make_provider. cbn [specialty specialty_denial_modifier network_status].
    split; [|apply choice_In; discriminate].
    rewrite <- surjective_pairing. apply choice_In. discriminate.
Qed.

Lemma make_payer_id (cfg : config) (i : nat) (info : string * string * Q)
  (d : payer_draws) : payer_id (make_payer cfg i info d) = ins_id (i + 1).
Proof. destruct info as [[n t] m]. reflexivity. Qed.

Lemma generate_payers_ids (cfg : config) (sel : list nat) (ds : list payer_draws) :
  map payer_id (generate_payers cfg sel ds) =
  map (fun i => ins_id (i + 1)) (seq 0 (Nat.min (num_payers cfg) (length payer_info))).
Proof.
  unfold generate_payers. rewrite map_map. apply map_ext. intros i.
  apply make_payer_id.
Qed.

(** [generate_payers]: [min(num_payers, len(payer_info))] payers with the
    pairwise distinct ids [INS + str(i+1).zfill(3)]; when the selection
    indices come from [payer_info], each payer's name, type and modifier
    form a row of [payer_info], its base denial rate is
    [round(overall_denial_rate * modifier, 3)] and its timely-filing limit
    is one of 30, 60, 90, 120, 180, 365. *)
Theorem payer_rows_well_formed (cfg : config) (sel : list nat) (ds : list payer_draws) :
  Forall (fun j => j < length payer_info)%nat sel ->
  length (generate_payers cfg sel ds) = Nat.min (num_payers cfg) 20 /\
  NoDup (map payer_id (generate_payers cfg sel ds)) /\
  Forall (fun y => In (payer_name y, payer_type y, payer_denial_modifier y) payer_info /\
                   base_denial_rate y =
                     py_round (overall_denial_rate cfg * payer_denial_modifier y) 3 /\
                   In (timely_filing_limit_days y) timely_filing_choices)
         (generate_payers cfg sel ds).
Proof.
  intros Hsel. split; [|split].
  - unfold generate_payers. rewrite length_map, length_seq. reflexivity.
  - rewrite generate_payers_ids. unfold ins_id. apply padded_ids_NoDup.
  - apply Forall_forall. intros y Hin. unfold generate_payers in Hin.
    apply in_map_iff in Hin as (i & <- & _).
    assert (Hj : (nth i sel 0 < length payer_info)%nat).
    { destruct (Nat.lt_ge_cases i (length sel)) as [Hi|Hi].
      - rewrite Forall_forall in Hsel. apply Hsel, nth_In, Hi.
      - rewrite nth_overflow by exact Hi. cbn. lia. }
    pose proof (nth_In payer_info ("", "", 1%Q) Hj) as Hinfo.
    destruct (nth (nth i sel 0%nat) payer_info ("", "", 1%Q)) as [[n t] m].
    unfold make_payer.
    cbn [payer_name payer_type payer_denial_modifier base_denial_rate
         timely_filing_limit_days].
    split; [exact Hinfo|split; [reflexivity|]].
    apply choice_In. discriminate.
Qed.

Lemma In_make_env_payers (patients : list patient) (providers : list provider)
  (payers : list payer) (k : string) :
  In k (map payer_id payers) ->
  exists r, dict_get (payer_base_denial_rates (make_env patients providers payers)) k
            = Some r.
Proof.
  intros Hin. apply dict_get_In_key. cbn. rewrite map_map. exact Hin.
Qed.

Lemma In_make_env_providers (patients : list patient) (providers : list provider)
  (payers : list payer) (k : string) :
  In k (map provider_id providers) ->
  (exists r, dict_get (provider_denial_modifiers (make_env patients providers payers)) k
             = Some r) /\
  (exists s, dict_get (provider_network_status (make_env patients providers payers)) k
             = Some s).
Proof.
  intros Hin. split; apply dict_get_In_key; cbn; rewrite map_map; exact Hin.
Qed.

Lemma generate_patients_nonempty (cfg : config) (today : Z) (ds : list patient_draws) :
  ds <> [] -> map patient_id (generate_patients cfg today ds) <> [].
Proof. destruct ds; [congruence|discriminate]. Qed.

Lemma generate_providers_nonempty (ds : list provider_draws) :
  ds <> [] -> map provider_id (generate_providers ds) <> [].
Proof. destruct ds; [congruence|discriminate]. Qed.

(** [main] with at most as many payers as [payer_info] holds: in every
    claim the patient, provider and payer ids are ids of records produced
    in the same run, and the payer and provider lookups of
    [generate_claims] find an entry (no fallback to the defaults). *)
Theorem run_references_resolve (cfg : config) (today : Z) (pds : list patient_draws)
  (vds : list provider_draws) (sel : list nat) (yds : list payer_draws)
  (cds : list claim_draws) :
  pds <> [] -> vds <> [] -> (1 <= num_payers cfg <= 20)%nat ->
  let patients := generate_patients cfg today pds in
  let providers := generate_providers vds in
  let payers := generate_payers cfg sel yds in
  let e := make_env patients providers payers in
  Forall (fun c =>
            In (c_patient_id c) (map patient_id patients) /\
            In (c_provider_id c) (map provider_id providers) /\
            In (c_payer_id c) (map payer_id payers) /\
            dict_get (payer_base_denial_rates e) (c_payer_id c) <> None /\
            dict_get (provider_denial_modifiers e) (c_provider_id c) <> None /\
            dict_get (provider_network_status e) (c_provider_id c) <> None)
         (generate_claims cfg e cds).
Proof.
  intros Hp Hv Hn. cbv zeta. apply Forall_forall. intros c Hin.
  destruct (ClaudeFacts.In_generate_claims _ _ _ _ Hin) as (i & d & _ & ->).
  set (patients := generate_patients cfg today pds).
  set (providers := generate_providers vds).
  set (payers := generate_payers cfg sel yds).
  assert (HP : In (c_patient_id (gen_claim cfg (make_env patients providers payers) i d))
                  (map patient_id patients)).
  { cbn [c_patient_id gen_claim]. apply choice_In, generate_patients_nonempty, Hp. }
  assert (HV : In (c_provider_id (gen_claim cfg (make_env patients providers payers) i d))
                  (map provider_id providers)).
  { cbn [c_provider_id gen_claim]. apply choice_In, generate_providers_nonempty, Hv. }
  assert (HY : In (c_payer_id (gen_claim cfg (make_env patients providers payers) i d))
                  (map payer_id payers)).
  { cbn [c_payer_id gen_claim]. unfold payers. rewrite generate_payers_ids.
    apply in_map_iff.
    pose proof (py_randint_range 1 (Z.of_nat (num_payers cfg)) (cd_payer d)) as Hr.
    set (r := py_randint 1 (Z.of_nat (num_payers cfg)) (cd_payer d)) in *.
    exists (Z.to_nat r - 1)%nat. split.
    - f_equal. lia.
    - apply in_seq. change (length payer_info) with 20%nat. lia. }
  destruct (In_make_env_payers patients providers payers _ HY) as [r Hr].
  destruct (In_make_env_providers patients providers payers _ HV) as [[m Hm] [s Hs]].
  repeat split; try assumption; congruence.
Qed.

(** [generate_claims]: [days_to_payment] is empty exactly for a denied
    claim; for an approved one it is [processing_date - submission_date],
    between 0 and 30 days. *)
Theorem days_to_payment_bounds (cfg : config) (e : env) (i : nat) (d : claim_draws) :
  let c := gen_claim cfg e i d in
  match days_to_payment c with
  | None => status_is_denied cfg (claim_status c) = true
  | Some k => status_is_denied cfg (claim_status c) = false /\
              k = processing_date c - submission_date c /\ 0 <= k <= 30
  end.
Proof.
  cbv zeta. unfold gen_claim. cbv zeta.
  cbn [days_to_payment claim_status processing_date submission_date].
  rewrite ClaudeFacts.status_is_denied_format.
  destruct (Qltb (cd_denial d) _); [reflexivity|].
  split; [reflexivity|split; [reflexivity|]].
  pose proof (py_randint_range 3 30 (cd_processing d)) as Hr.
  set (k := py_randint 3 30 (cd_processing d)) in *.
  set (s := Z.min _ (end_date cfg)).
  assert (Hs : s <= end_date cfg) by apply Z.le_min_r.
  destruct (s + k >? end_date cfg) eqn:E; [rewrite Z.gtb_ltb, Z.ltb_lt in E|]; lia.
Qed.

(** [generate_claims]: every code a claim carries is a key of its catalog,
    so the description lookups [diagnosis_codes[code]],
    [procedure_codes[code]], [place_of_service_codes[code]] (and the [.get]
    of the optional ones) always find an entry. *)
Theorem claim_codes_in_catalogs (cfg : config) (e : env) (i : nat) (d : claim_draws) :
  let c := gen_claim cfg e i d in
  In (primary_diagnosis_code c) diagnosis_codes /\
  (forall s, secondary_diagnosis_code c = Some s -> In s diagnosis_codes) /\
  In (procedure_code c) procedure_codes /\
  In (place_of_service_code c) place_of_service_codes /\
  (forall r, revenue_code c = Some r -> In r revenue_codes).
Proof.
  cbv zeta. unfold gen_claim. cbv zeta.
  cbn [primary_diagnosis_code secondary_diagnosis_code procedure_code
       place_of_service_code revenue_code].
  repeat split.
  - apply choice_In. discriminate.
  - intros s. destruct (Qltb _ _); [|discriminate]. intros H. injection H as <-.
    apply choice_In. discriminate.
  - apply choice_In. discriminate.
  - apply choice_In. discriminate.
  - intros r. destruct (Qltb _ _); [|discriminate]. intros H. injection H as <-.
    apply choice_In. discriminate.
Qed.


(** [generate_claims]: with draws in [0, 1), the charge amount lies in
    [50, 5000] outside the hospital places of service "21" and "23", and in
    [75, 15000] at them. *)
Theorem charge_amount_range (cfg : config) (e : env) (i : nat) (d : claim_draws) :
  claim_draws_ok d = true ->
  let c := gen_claim cfg e i d in
  (existsb (String.eqb (place_of_service_code c)) ["21"; "23"] = false ->
   (50 <= charge_amount c <= 5000)%Q) /\
  (existsb (String.eqb (place_of_service_code c)) ["21"; "23"] = true ->
   (75 <= charge_amount c <= 15000)%Q).
Proof.
  intros Hok. destruct (ClaudeFacts.claim_draws_ok_spec d Hok) as [Hb Hh]. cbv zeta.
  unfold gen_claim. cbv zeta. cbn [charge_amount place_of_service_code].
  unfold py_uniform.
  destruct (existsb _ ["21"; "23"]); split; intros H; try discriminate.
  - destruct Hb as [Hb1 Hb2], Hh as [Hh1 Hh2].
    set (b := cd_base_charge d) in *. set (h := cd_hospital_factor d) in *.
    pose proof (py_round2_between ((50 + (5000 - 50) * b) * ((3 # 2) + (3 - (3 # 2)) * h))
                  7500 1500000) as R.
    change (inject_Z 7500) with (7500 # 1) in R.
    change (inject_Z 1500000) with (1500000 # 1) in R.
    assert (P1 : (0 <= b * h)%Q) by (apply Qmult_le_0_compat; lra).
    assert (P2 : (b * h <= b)%Q).
    { setoid_replace b with (b * 1)%Q at 2 by ring. rewrite (Qmult_comm b h), (Qmult_comm b 1). apply Qmult_le_compat_r; lra. }
    assert (E : ((50 + (5000 - 50) * b) * ((3 # 2) + (3 - (3 # 2)) * h) ==
                 75 + 75 * h + 7425 * b + 7425 * (b * h))%Q) by ring.
    assert (HX : ((7500 # 1) * (1 # 100) <= (50 + (5000 - 50) * b) *
                   ((3 # 2) + (3 - (3 # 2)) * h) <= (1500000 # 1) * (1 # 100))%Q).
    { rewrite E. generalize dependent (b * h)%Q. intros bh P1 P2. split; lra. }
    apply R in HX. destruct HX as [HX1 HX2]. split; lra.
  - destruct Hb as [Hb1 Hb2].
    pose proof (py_round2_between (50 + (5000 - 50) * cd_base_charge d) 5000 500000) as R.
    change (inject_Z 5000) with (5000 # 1) in R.
    change (inject_Z 500000) with (500000 # 1) in R.
    assert (HX : ((5000 # 1) * (1 # 100) <= 50 + (5000 - 50) * cd_base_charge d
                  <= (500000 # 1) * (1 # 100))%Q) by (split; lra).
    apply R in HX. destruct HX as [HX1 HX2]. split; lra.
Qed.

Lemma filter_length_le {A} (f : A -> bool) (l : list A) :
  (length (filter f l) <= length l)%nat.
Proof.
  induction l as [|x l IH]; cbn; [lia|]. destruct (f x); cbn; lia.
Qed.

Lemma share_unit (a b : nat) :
  (a <= b)%nat -> (0 < b)%nat ->
  (0 <= inject_Z (Z.of_nat a) / inject_Z (Z.of_nat b) <= 1)%Q.
Proof.
  intros Hab Hb.
  assert (Hb' : (0 < inject_Z (Z.of_nat b))%Q).
  { change 0%Q with (inject_Z 0). rewrite <- Zlt_Qlt. lia. }
  assert (Ha' : (0 <= inject_Z (Z.of_nat a))%Q).
  { change 0%Q with (inject_Z 0). rewrite <- Zle_Qle. lia. }
  assert (Hle : (inject_Z (Z.of_nat a) <= inject_Z (Z.of_nat b))%Q).
  { rewrite <- Zle_Qle. lia. }
  split.
  - apply Qle_shift_div_l; [exact Hb'|]. lra.
  - apply Qle_shift_div_r; [exact Hb'|]. lra.
Qed.

(** [calculate_denial_rate]: a share in [0, 1], 0 for an empty frame; on
    the claims of [generate_claims] it is the share of claims that carry a
    denial-reason code. *)
Theorem calculate_denial_rate_spec :
  (forall (cfg : config) (claims_df : list claim),
     (0 <= calculate_denial_rate cfg claims_df <= 1)%Q /\
     (claims_df = [] -> calculate_denial_rate cfg claims_df = 0%Q)) /\
  (forall (cfg : config) (e : env) (ds : list claim_draws),
     let cs := generate_claims cfg e ds in
     calculate_denial_rate cfg cs =
     if Nat.ltb 0 (length ds)
     then (inject_Z (Z.of_nat (length (filter (fun c => is_some (denial_reason_code c)) cs)))
           / inject_Z (Z.of_nat (length ds)))%Q
     else 0%Q).
Proof.
  split.
  - intros cfg claims_df. split.
    + unfold calculate_denial_rate. destruct (Nat.ltb 0 _) eqn:E; [|lra].
      apply Nat.ltb_lt in E. apply share_unit; [apply filter_length_le|exact E].
    + intros ->. reflexivity.
  - intros cfg e ds. cbv zeta. unfold calculate_denial_rate.
    replace (length (generate_claims cfg e ds)) with (length ds)
      by (symmetry; apply generate_claims_from_length).
    replace (filter (fun c => status_is_denied cfg (claim_status c)) (generate_claims cfg e ds))
      with (filter (fun c => is_some (denial_reason_code c)) (generate_claims cfg e ds));
      [reflexivity|].
    apply filter_ext_in. intros c Hin.
    destruct (ClaudeFacts.In_generate_claims _ _ _ _ Hin) as (i & d & _ & ->).
    destruct (ClaudeFacts.gen_claim_outcome cfg e i d) as [(H1 & H2 & _)|(H1 & H2 & _)];
      cbv zeta in *; rewrite H1.
    + destruct (denial_reason_code _); [reflexivity|congruence].
    + rewrite H2. reflexivity.
Qed.













Lemma payer_rows_well_formed_witness :
  Forall (fun j => j < length payer_info)%nat (seq 0 20) /\
  length (generate_payers Samples.small_config (seq 0 20) Samples.payer_draws_20) =
    Nat.min (num_payers Samples.small_config) 20 /\
  NoDup (map payer_id (generate_payers Samples.small_config (seq 0 20)
                                       Samples.payer_draws_20)) /\
  Forall (fun y => In (payer_name y, payer_type y, payer_denial_modifier y) payer_info /\
                   base_denial_rate y =
                     py_round (overall_denial_rate Samples.small_config *
                               payer_denial_modifier y) 3 /\
                   In (timely_filing_limit_days y) timely_filing_choices)
         (generate_payers Samples.small_config (seq 0 20) Samples.payer_draws_20).
Proof.
  assert (H : Forall (fun j => j < length payer_info)%nat (seq 0 20)).
  { apply Forall_forall. intros j Hj. apply in_seq in Hj. cbn. lia. }
  split; [exact H|]. exact (payer_rows_well_formed _ _ _ H).
Defined.

Lemma run_references_resolve_witness :
  let cds := [Samples.approved_office; Samples.denied_late] in
  let patients := generate_patients Samples.small_config Samples.today_2026
                    Samples.patient_draws_1 in
  let providers := generate_providers Samples.provider_draws_3 in
  let payers := generate_payers Samples.small_config (seq 0 20) Samples.payer_draws_20 in
  let e := make_env patients providers payers in
  Samples.patient_draws_1 <> [] /\ Samples.provider_draws_3 <> [] /\
  (1 <= num_payers Samples.small_config <= 20)%nat /\
  Forall (fun c =>
            In (c_patient_id c) (map patient_id patients) /\
            In (c_provider_id c) (map provider_id providers) /\
            In (c_payer_id c) (map payer_id payers) /\
            dict_get (payer_base_denial_rates e) (c_payer_id c) <> None /\
            dict_get (provider_denial_modifiers e) (c_provider_id c) <> None /\
            dict_get (provider_network_status e) (c_provider_id c) <> None)
         (generate_claims Samples.small_config e cds).
Proof.
  cbv zeta.
  assert (H1 : Samples.patient_draws_1 <> []) by discriminate.
  assert (H2 : Samples.provider_draws_3 <> []) by discriminate.
  assert (H3 : (1 <= num_payers Samples.small_config <= 20)%nat) by (cbn; lia).
  split; [exact H1|]. split; [exact H2|]. split; [exact H3|].
  exact (run_references_resolve Samples.small_config Samples.today_2026
           Samples.patient_draws_1 Samples.provider_draws_3 (seq 0 20)
           Samples.payer_draws_20 [Samples.approved_office; Samples.denied_late]
           H1 H2 H3).
Defined.

Lemma charge_amount_range_witness :
  let c := gen_claim CONFIG Samples.sample_env 0 Samples.approved_office in
  claim_draws_ok Samples.approved_office = true /\
  (existsb (String.eqb (place_of_service_code c)) ["21"; "23"] = false ->
   (50 <= charge_amount c <= 5000)%Q) /\
  (existsb (String.eqb (place_of_service_code c)) ["21"; "23"] = true ->
   (75 <= charge_amount c <= 15000)%Q).
Proof.
  assert (H : claim_draws_ok Samples.approved_office = true) by (vm_compute; reflexivity).
  split; [exact H|]. exact (charge_amount_range CONFIG Samples.sample_env 0 _ H).
Defined.


End ClaudeMore.

(** ** Further facts about the gemini generator *)

Module GeminiMore.
Import Gemini Support.

Lemma claims_loop_spec (START_DATE END_DATE : Z) (e : env) (ds : list claim_draws) :
  forall i claims_data denial_count,
  let rows := map (fun '(j, d) => gen_claim START_DATE END_DATE e j d)
                  (combine (seq i (length ds)) ds) in
  claims_loop START_DATE END_DATE e i ds claims_data denial_count =
  ((claims_data ++ rows)%list,
   denial_count +
   length (filter (fun c => (g_claim_status c =? CLAIM_STATUS_DENIED)%Z) rows))%nat.
Proof.
  induction ds as [|d ds IH]; intros i claims_data denial_count; cbv zeta;
    cbn [claims_loop length seq combine map filter].
  - rewrite app_nil_r. f_equal. cbn. lia.
  - rewrite IH. rewrite <- app_assoc. cbn [app].
    destruct (g_claim_status (gen_claim START_DATE END_DATE e i d) =? CLAIM_STATUS_DENIED);
      cbn [length]; f_equal; lia.
Qed.


Lemma gen_claim_id (START_DATE END_DATE : Z) (e : env) (i : nat) (d : claim_draws) :
  g_claim_id (gen_claim START_DATE END_DATE e i d) =
  append "CLAIM_" (zfill (str_of_nat (i + 1)) 9).
Proof.
  unfold gen_claim. cbv zeta.
  match goal with
  | |- context [denial_probability_and_override ?a ?b ?c ?d' ?e' ?f ?g ?h] =>
      destruct (denial_probability_and_override a b c d' e' f g h) as [p ov]
  end.
  match goal with
  | |- context [if ?b then _ else _] => destruct b
  end; reflexivity.
Qed.


Lemma length_make_ids (prefix : string) (w n : nat) : length (make_ids prefix w n) = n.
Proof. unfold make_ids. rewrite length_map. apply length_seq. Qed.




Lemma claim_draws_ok_gemini (d : claim_draws) :
  claim_draws_ok d = true ->
  Claude.unit_draw_ok (gd_charge d) = true /\ Claude.unit_draw_ok (gd_cpt d) = true /\
  Claude.unit_draw_ok (gd_icd10 d) = true /\ Claude.unit_draw_ok (gd_reason d) = true /\
  Claude.unit_draw_ok (gd_paid d) = true.
Proof.
  unfold claim_draws_ok. simpl. rewrite !andb_true_iff.
  intros (H1 & H2 & H3 & _ & _ & _ & H7 & _ & _ & _ & H11 & _). auto.
Qed.

Lemma override_in_reasons (base : Q) (specialty : string) (ob cm di : bool) (lag : Z)
  (u0 u1 : Q) (o : string) :
  snd (denial_probability_and_override base specialty ob cm di lag u0 u1) = Some o ->
  In o (map fst denial_weights).
Proof.
  unfold denial_probability_and_override.
  destruct ob, cm, di; cbv beta iota zeta;
  repeat match goal with
         | |- context [Claude.Qltb ?a ?b] => destruct (Claude.Qltb a b)
         end; cbn [snd]; intros H; try discriminate; injection H as <-; cbn; tauto.
Qed.

(** [make_ids] (lines 65-67): [n] ids [prefix + str(i+1).zfill(w)], pairwise
    distinct, each of which reads back (after the prefix) as its
    position [i+1]. *)
Theorem make_ids_distinct (prefix : string) (w n : nat) :
  length (make_ids prefix w n) = n /\ NoDup (make_ids prefix w n) /\
  (forall i, (i < n)%nat ->
   exists s, nth i (make_ids prefix w n) "" = append prefix s /\
             int_of_digits s = (i + 1)%nat).
Proof.
  split; [apply length_make_ids|]. split; [apply padded_ids_NoDup|].
  intros i Hi. exists (zfill (str_of_nat (i + 1)) w). split.
  - set (f := fun j => append prefix (zfill (str_of_nat (j + 1)) w)).
    transitivity (f (nth i (seq 0 n) 0%nat)).
    + unfold make_ids. fold f.
      rewrite nth_indep with (d' := f 0%nat) by (rewrite length_map, length_seq; exact Hi).
      apply map_nth.
    + rewrite seq_nth by exact Hi. reflexivity.
  - apply int_of_digits_zfill.
Qed.

(** The claim loop (lines 112-242): one row per draw record, claim ids
    [CLAIM_ + str(i+1).zfill(9)] in order and pairwise distinct, and the
    final [denial_count] equal to the number of rows with status 1. *)
Theorem claims_loop_rows (START_DATE END_DATE : Z) (e : env) (ds : list claim_draws) :
  let '(claims_data, denial_count) := generate_claims START_DATE END_DATE e ds in
  length claims_data = length ds /\
  map g_claim_id claims_data = make_ids "CLAIM_" 9 (length ds) /\
  NoDup (map g_claim_id claims_data) /\
  denial_count =
    length (filter (fun c => g_claim_status c =? CLAIM_STATUS_DENIED) claims_data).
Proof.
  unfold generate_claims. rewrite claims_loop_spec. cbv zeta. cbn [app].
  assert (Hids : map g_claim_id
                   (map (fun '(j, d) => gen_claim START_DATE END_DATE e j d)
                        (combine (seq 0 (length ds)) ds)) =
                 make_ids "CLAIM_" 9 (length ds)).
  { rewrite map_map.
    replace (map (fun x => g_claim_id (let '(j, d) := x in gen_claim START_DATE END_DATE e j d))
                 (combine (seq 0 (length ds)) ds))
      with (map (fun j => append "CLAIM_" (zfill (str_of_nat (j + 1)) 9))
                (map fst (combine (seq 0 (length ds)) ds))).
    - rewrite map_fst_combine by (rewrite length_seq; lia). reflexivity.
    - rewrite map_map. apply map_ext. intros [j d]. symmetry. apply gen_claim_id. }
  split; [|split; [exact Hids|split]].
  - rewrite length_map, length_combine, length_seq. lia.
  - rewrite Hids. apply padded_ids_NoDup.
  - reflexivity.
Qed.



(** The dates of a row (lines 146-151): with [START_DATE <= END_DATE] the
    service date lies in [START_DATE, END_DATE], the submission lag in
    [1, 30], and the submission date between the service date and
    [END_DATE]; the submission date is the service date plus the lag unless
    that passes [END_DATE], when it is [END_DATE] and the recorded lag
    exceeds the real gap. *)
Theorem claim_dates_window (START_DATE END_DATE : Z) (e : env) (i : nat)
  (d : claim_draws) :
  START_DATE <= END_DATE ->
  let c := gen_claim START_DATE END_DATE e i d in
  START_DATE <= date_of_service c <= END_DATE /\
  1 <= submission_lag_days c <= 30 /\
  date_of_service c <= claim_submission_date c <= END_DATE /\
  (date_of_service c + submission_lag_days c <= END_DATE ->
   claim_submission_date c = date_of_service c + submission_lag_days c) /\
  (END_DATE < date_of_service c + submission_lag_days c ->
   claim_submission_date c = END_DATE /\
   claim_submission_date c - date_of_service c < submission_lag_days c).
Proof.
  intros Hse. cbv zeta. unfold gen_claim. cbv zeta.
  match goal with
  | |- context [denial_probability_and_override ?a ?b ?c ?d' ?e' ?f ?g ?h] =>
      destruct (denial_probability_and_override a b c d' e' f g h) as [p ov]
  end.
  match goal with
  | |- context [if ?b then _ else _] => destruct b
  end; cbn [date_of_service claim_submission_date submission_lag_days].
  all: pose proof (py_randint_range 0 (END_DATE - START_DATE) (gd_service d)) as H1.
  all: pose proof (py_randint_range 1 30 (gd_lag d)) as H2.
  all: lia.
Qed.

(** The codes of a row (lines 120-125, 154-155, 206-216): with draws in
    [0, 1) the CPT and ICD-10 codes are entries of [cpt_codes] and
    [icd10_codes], and a denial reason code (the override NO_AUTH,
    CODING_MISMATCH or INCOMPLETE_DOCS, or the weighted pick) is a key of
    [denial_weights]. *)
Theorem claim_codes_in_lists (START_DATE END_DATE : Z) (e : env) (i : nat)
  (d : claim_draws) :
  claim_draws_ok d = true ->
  let c := gen_claim START_DATE END_DATE e i d in
  In (cpt_code c) cpt_codes /\ In (icd10_code c) icd10_codes /\
  (forall r, g_denial_reason_code c = Some r -> In r (map fst denial_weights)).
Proof.
  intros Hok. destruct (claim_draws_ok_gemini d Hok) as (_ & Hc & Hi & Hr & _).
  cbv zeta. unfold gen_claim. cbv zeta.
  match goal with
  | |- context [denial_probability_and_override ?a ?b ?c ?d' ?e' ?f ?g ?h] =>
      pose proof (override_in_reasons a b c d' e' f g h) as Hov;
      destruct (denial_probability_and_override a b c d' e' f g h) as [p ov]
  end.
  cbn [snd] in Hov.
  assert (Hch : In (py_choices (map fst denial_weights) (map snd denial_weights)
                               (gd_reason d) "") (map fst denial_weights)).
  { apply py_choices_In_pop; [reflexivity| |exact Hr]. unfold Qlt. vm_compute. reflexivity. }
  match goal with
  | |- context [if ?b then _ else _] => destruct b
  end; cbn [cpt_code icd10_code g_denial_reason_code].
  all: split; [apply py_choices_In_pop; [reflexivity| |exact Hc];
               unfold Qlt; vm_compute; reflexivity|].
  all: split; [apply py_choices_In_pop; [reflexivity| |exact Hi];
               unfold Qlt; vm_compute; reflexivity|].
  all: intros r Hrc; try discriminate.
  injection Hrc as <-. destruct ov as [o|].
  - destruct (Claude.Qltb (gd_use_override d) (85 # 100)); [apply Hov; reflexivity|exact Hch].
  - exact Hch.
Qed.

(** The amounts of a row (lines 157, 220): with draws in [0, 1) the charge
    [round(uniform(50, 5000), 2)] lies in [50, 5000], and an approved row's
    [round(charge * uniform(0.70, 0.95), 2)] is at most the charge and at
    least 70% of it, up to the rounding half-cent. *)
Theorem claim_amounts_range (START_DATE END_DATE : Z) (e : env) (i : nat)
  (d : claim_draws) :
  claim_draws_ok d = true ->
  let c := gen_claim START_DATE END_DATE e i d in
  (50 <= claim_charge_amount c <= 5000)%Q /\
  (g_claim_status c = CLAIM_STATUS_APPROVED ->
   (7 # 10) * claim_charge_amount c - (1 # 200) <= paid_amount c <= claim_charge_amount c)%Q.
Proof.
  intros Hok. destruct (GeminiFacts.gemini_draws_ok_spec d Hok) as [[Hc1 Hc2] [Hp1 Hp2]].
  cbv zeta. unfold gen_claim. cbv zeta.
  pose proof (py_round2_between (Claude.py_uniform 50 5000 (gd_charge d)) 5000 500000) as R.
  change (inject_Z 5000) with (5000 # 1) in R.
  change (inject_Z 500000) with (500000 # 1) in R.
  assert (HX : ((5000 # 1) * (1 # 100) <= Claude.py_uniform 50 5000 (gd_charge d)
                <= (500000 # 1) * (1 # 100))%Q)
    by (unfold Claude.py_uniform; split; lra).
  apply R in HX. clear R.
  set (ch := py_round (Claude.py_uniform 50 5000 (gd_charge d)) 2) in *.
  match goal with
  | |- context [denial_probability_and_override ?a ?b ?c ?d' ?e' ?f ?g ?h] =>
      destruct (denial_probability_and_override a b c d' e' f g h) as [p ov]
  end.
  destruct (Claude.Qltb (gd_determiner d) p);
    cbn [claim_charge_amount g_claim_status paid_amount Z.eqb Pos.eqb
         CLAIM_STATUS_DENIED CLAIM_STATUS_APPROVED].
  - split; [split; lra|]. intros H. discriminate.
  - split; [split; lra|]. intros _.
    pose proof (py_round2_bound (ch * Claude.py_uniform (70 # 100) (95 # 100) (gd_paid d))).
    set (y := Claude.py_uniform (70 # 100) (95 # 100) (gd_paid d)) in *.
    assert (Hy : (7 # 10 <= y <= 95 # 100)%Q) by (subst y; unfold Claude.py_uniform; split; lra).
    assert (E1 : (0 <= ch * (y - (7 # 10)))%Q) by (apply Qmult_le_0_compat; lra).
    assert (E2 : (0 <= ch * ((95 # 100) - y))%Q) by (apply Qmult_le_0_compat; lra).
    split; lra.
Qed.



Lemma claim_dates_window_witness :
  let c := gen_claim Samples.gemini_start Samples.gemini_end Samples.gemini_env 0
             (Samples.gemini_draws (1 # 2)) in
  Samples.gemini_start <= Samples.gemini_end /\
  Samples.gemini_start <= date_of_service c <= Samples.gemini_end /\
  1 <= submission_lag_days c <= 30 /\
  date_of_service c <= claim_submission_date c <= Samples.gemini_end /\
  (date_of_service c + submission_lag_days c <= Samples.gemini_end ->
   claim_submission_date c = date_of_service c + submission_lag_days c) /\
  (Samples.gemini_end < date_of_service c + submission_lag_days c ->
   claim_submission_date c = Samples.gemini_end /\
   claim_submission_date c - date_of_service c < submission_lag_days c).
Proof.
  assert (H : Samples.gemini_start <= Samples.gemini_end) by (vm_compute; discriminate).
  split; [exact H|].
  exact (claim_dates_window _ _ Samples.gemini_env 0 (Samples.gemini_draws (1 # 2)) H).
Defined.

Lemma claim_codes_in_lists_witness :
  let c := gen_claim Samples.gemini_start Samples.gemini_end Samples.gemini_env 0
             (Samples.gemini_draws (1 # 10)) in
  claim_draws_ok (Samples.gemini_draws (1 # 10)) = true /\
  In (cpt_code c) cpt_codes /\ In (icd10_code c) icd10_codes /\
  (forall r, g_denial_reason_code c = Some r -> In r (map fst denial_weights)).
Proof.
  assert (H : claim_draws_ok (Samples.gemini_draws (1 # 10)) = true)
    by (vm_compute; reflexivity).
  split; [exact H|].
  exact (claim_codes_in_lists Samples.gemini_start Samples.gemini_end Samples.gemini_env 0
           _ H).
Defined.

Lemma claim_amounts_range_witness :
  let c := gen_claim Samples.gemini_start Samples.gemini_end Samples.gemini_env 0
             (Samples.gemini_draws (99 # 100)) in
  claim_draws_ok (Samples.gemini_draws (99 # 100)) = true /\
  (50 <= claim_charge_amount c <= 5000)%Q /\
  (g_claim_status c = CLAIM_STATUS_APPROVED ->
   (7 # 10) * claim_charge_amount c - (1 # 200) <= paid_amount c <= claim_charge_amount c)%Q.
Proof.
  assert (H : claim_draws_ok (Samples.gemini_draws (99 # 100)) = true)
    by (vm_compute; reflexivity).
  split; [exact H|].
  exact (claim_amounts_range Samples.gemini_start Samples.gemini_end Samples.gemini_env 0
           _ H).
Defined.

End GeminiMore.
